(** * AVeriTeC coarse retrieval: [retrieval_coarse/averitec_search.py]

    A shallow embedding of the retrieval script and the properties
    of its date normalisation, search retry, result filter, per-claim URL
    store, fetch worker and resume log.

    Conventions.  A Python [str] is a Rocq [string]; the character with
    number [n] stands for the code point [n] (so the model covers the code
    points below 256, and all examples are plain ASCII).  Code that may raise
    returns a [res]: [Ret v] for a normal return and [Raise e] for an
    exception that leaves the modelled block.  Python dictionaries that are
    only looked up by key ([visited], [existing]) are [gmap]s. *)

From Stdlib Require Import ZArith Ascii String List Lia Bool.
From Stdlib Require Import DecimalString DecimalNat DecimalPos DecimalZ.
From stdpp Require Import gmap strings list fin_maps.

Local Open Scope list_scope.

(** ** Exceptions and results *)

(** An exception object: the name of its class, [type(e).__name__], and its
    message, [str(e)]. *)
Record exn : Type := Exn { exn_type : string; exn_msg : string }.

Definition ValueError (msg : string) : exn := Exn "ValueError" msg.
Definition IndexError (msg : string) : exn := Exn "IndexError" msg.

Inductive res (A : Type) : Type :=
| Ret (a : A)
| Raise (e : exn).
Arguments Ret {A} a.
Arguments Raise {A} e.

Definition bind {A B : Type} (m : res A) (k : A -> res B) : res B :=
  match m with
  | Ret a => k a
  | Raise e => Raise e
  end.

Notation "'do' x <- m ; k" := (bind m (fun x => k))
  (at level 10, x name, m at level 100, k at level 200).

Definition returns {A : Type} (m : res A) : Prop := exists a, m = Ret a.

(** ** Python string primitives *)

Module PyStr.

(** [c.isspace()] on the code points below 256. *)
Definition isspace (c : ascii) : bool :=
  let n := nat_of_ascii c in
  ((9 <=? n) && (n <=? 13)) || ((28 <=? n) && (n <=? 32))
  || (n =? 133) || (n =? 160).

(** [c.lower()] on the code points below 256: A-Z and the Latin-1 capitals. *)
Definition lower_char (c : ascii) : ascii :=
  let n := nat_of_ascii c in
  if ((65 <=? n) && (n <=? 90))
     || ((192 <=? n) && (n <=? 222) && negb (n =? 215))
  then ascii_of_nat (n + 32) else c.

Fixpoint lower (s : string) : string :=
  match s with
  | EmptyString => EmptyString
  | String c s' => String (lower_char c) (lower s')
  end.

Fixpoint lstrip (s : string) : string :=
  match s with
  | EmptyString => EmptyString
  | String c s' => if isspace c then lstrip s' else s
  end.

(** [rstrip]: a character is dropped when it is white space and everything
    after it has been dropped. *)
Fixpoint rstrip (s : string) : string :=
  match s with
  | EmptyString => EmptyString
  | String c s' =>
      match rstrip s' with
      | EmptyString => if isspace c then EmptyString else String c EmptyString
      | r => String c r
      end
  end.

(** [s.strip()] *)
Definition strip (s : string) : string := rstrip (lstrip s).

(** [s.split(sep)] for a separator of one character: the fields between
    the separators, always at least one field. *)
Fixpoint split (sep : ascii) (s : string) : list string :=
  match s with
  | EmptyString => [EmptyString]
  | String c s' =>
      if Ascii.eqb c sep then EmptyString :: split sep s'
      else match split sep s' with
           | f :: fs => String c f :: fs
           | [] => [String c EmptyString]
           end
  end.

(** [s.split()]: the maximal runs of characters that are not white space. *)
Fixpoint split_ws (s : string) : list string :=
  match s with
  | EmptyString => []
  | String c s' =>
      if isspace c then split_ws s'
      else match s' with
           | EmptyString => [String c EmptyString]
           | String c' _ =>
               if isspace c' then String c EmptyString :: split_ws s'
               else match split_ws s' with
                    | w :: ws => String c w :: ws
                    | [] => [String c EmptyString]
                    end
           end
  end.

Definition tab : ascii := "009"%char.
Definition newline : string := String "010"%char EmptyString.

(** [sep.join(parts)] *)
Fixpoint join (sep : string) (parts : list string) : string :=
  match parts with
  | [] => EmptyString
  | [p] => p
  | p :: ps => p +:+ sep +:+ join sep ps
  end.

(** [s.startswith(p)] *)
Fixpoint startswith (s p : string) : bool :=
  match p, s with
  | EmptyString, _ => true
  | String a p', String b s' => Ascii.eqb a b && startswith s' p'
  | String _ _, EmptyString => false
  end.

(** [c in s] for a single character [c]. *)
Fixpoint has_char (c : ascii) (s : string) : bool :=
  match s with
  | EmptyString => false
  | String a s' => Ascii.eqb a c || has_char c s'
  end.

(** [p in s] for strings: [p] starts at some position of [s]. *)
Fixpoint contains (s p : string) : bool :=
  startswith s p ||
  match s with
  | EmptyString => false
  | String _ s' => contains s' p
  end.

(** [s.endswith(p)]: [p] is the tail of [s] of its own length. *)
Fixpoint endswith (s p : string) : bool :=
  String.eqb s p ||
  match s with
  | EmptyString => false
  | String _ s' => endswith s' p
  end.

(** [s.endswith((p1, p2, ...))] *)
Definition endswith_any (s : string) (ps : list string) : bool :=
  existsb (endswith s) ps.

(** [s[n:]] *)
Fixpoint drop (n : nat) (s : string) : string :=
  match n, s with
  | O, _ => s
  | S n', String _ s' => drop n' s'
  | S _, EmptyString => EmptyString
  end.

(** [str(n)] for a natural number: its decimal digits. *)
Definition str_of_nat (n : nat) : string :=
  NilZero.string_of_uint (Nat.to_uint n).

(** [str(z)] for an integer. *)
Definition str_of_Z (z : Z) : string :=
  NilZero.string_of_int (Z.to_int z).

(** [repr(s)] for a string of printable characters without quotes or
    backslashes: the string between single quotes. *)
Definition repr (s : string) : string := "'" +:+ s +:+ "'".

Definition digit_of (c : ascii) : option Z :=
  let n := nat_of_ascii c in
  if (48 <=? n) && (n <=? 57) then Some (Z.of_nat (n - 48)) else None.

(** The digits of an [int] literal: digits, with single underscores allowed
    between two digits. *)
Inductive lit_state := LitStart | LitDigit | LitUnderscore.

Fixpoint digits_value (st : lit_state) (acc : Z) (s : string) : option Z :=
  match s with
  | EmptyString => match st with LitDigit => Some acc | _ => None end
  | String c s' =>
      match digit_of c with
      | Some d => digits_value LitDigit (10 * acc + d)%Z s'
      | None =>
          if Ascii.eqb c "_"%char then
            match st with
            | LitDigit => digits_value LitUnderscore acc s'
            | _ => None
            end
          else None
      end
  end.

(** The white space that [int] skips around a literal: the ASCII white
    space of C (tab to carriage return, and the space) and, of the other
    code points below 256, the two that [int] turns into a space (U+0085 and
    U+00A0).  The separators U+001C to U+001F are white space for [strip]
    and not for [int]. *)
Definition int_space (c : ascii) : bool :=
  let n := nat_of_ascii c in
  ((9 <=? n) && (n <=? 13)) || (n =? 32) || (n =? 133) || (n =? 160).

Fixpoint int_lstrip (s : string) : string :=
  match s with
  | EmptyString => EmptyString
  | String c s' => if int_space c then int_lstrip s' else s
  end.

Fixpoint int_rstrip (s : string) : string :=
  match s with
  | EmptyString => EmptyString
  | String c s' =>
      match int_rstrip s' with
      | EmptyString => if int_space c then EmptyString else String c EmptyString
      | r => String c r
      end
  end.

(** [int(s)] for a string: the white space of [int] around the literal is
    skipped, one sign is allowed, anything else raises [ValueError]. *)
Definition int (s : string) : res Z :=
  let body := int_rstrip (int_lstrip s) in
  let signed :=
    match body with
    | String "+"%char r => digits_value LitStart 0 r
    | String "-"%char r => option_map Z.opp (digits_value LitStart 0 r)
    | _ => digits_value LitStart 0 body
    end in
  match signed with
  | Some v => Ret v
  | None => Raise (ValueError ("invalid literal for int() with base 10: " +:+ repr s))
  end.

End PyStr.

(** ** DateNormalizer: the date block of the main loop *)

Module DateNormalizer.
Import PyStr.

(** [year, month, date = example["check_date"].split("-")] under its [try]:
    the unpacking raises unless there are exactly three fields, and the
    handler assigns the fixed date.  [None] is an example without a
    ["check_date"] string, for which the [try] raises as well. *)
Definition split_date (check_date : option string) : string * string * string :=
  match check_date with
  | Some raw =>
      match split "-"%char raw with
      | [year; month; date] => (year, month, date)
      | _ => ("2022", "01", "01")
      end
  | None => ("2022", "01", "01")
  end.

Definition expand_year (year : string) : res string :=
  if String.length year =? 2 then
    do v <- int year;
    Ret ((if (v <=? 30)%Z then "20" else "19") +:+ year)
  else if String.length year =? 1 then Ret ("200" +:+ year)
  else Ret year.

Definition pad2 (field : string) : string :=
  if String.length field =? 1 then "0" +:+ field else field.

(** The value of [sort_date] for an example. *)
Definition sort_date (check_date : option string) : res string :=
  let '(year, month, date) := split_date check_date in
  do year' <- expand_year year;
  Ret (year' +:+ pad2 month +:+ pad2 date).

(** The same for a raw [check_date] string. *)
Definition normalize_date (check_date : string) : res string :=
  sort_date (Some check_date).

End DateNormalizer.

(** ** The library function [urllib.parse.urlparse]

    [urlparse] is not code of the repository.  Its [netloc] is modelled after
    [urlsplit] of CPython 3.10 (from 3.10.12 on): leading control characters
    and spaces are dropped, tabs and line breaks are removed, a leading
    scheme is split off, and the authority after [//] runs to the first [/],
    [?] or [#].  A netloc with only one kind of square bracket raises
    [ValueError].  From CPython 3.11.4 on, [urlsplit] also raises for a host
    between brackets that is not an IPv6 or IPvFuture address; this later
    check, and the check of non-ASCII hosts, are outside the model, so for a
    link with a host between brackets the model follows the older library. *)

Module UrlParse.
Import PyStr.

Definition is_ascii_alpha (c : ascii) : bool :=
  let n := nat_of_ascii c in
  ((65 <=? n) && (n <=? 90)) || ((97 <=? n) && (n <=? 122)).

Definition is_scheme_char (c : ascii) : bool :=
  let n := nat_of_ascii c in
  is_ascii_alpha c || ((48 <=? n) && (n <=? 57))
  || (n =? 43) || (n =? 45) || (n =? 46).

(** [url.lstrip(_WHATWG_C0_CONTROL_OR_SPACE)] *)
Fixpoint lstrip_c0 (s : string) : string :=
  match s with
  | EmptyString => EmptyString
  | String c s' => if nat_of_ascii c <=? 32 then lstrip_c0 s' else s
  end.

(** The removal of tab, carriage return and line feed. *)
Fixpoint remove_unsafe (s : string) : string :=
  match s with
  | EmptyString => EmptyString
  | String c s' =>
      let n := nat_of_ascii c in
      if (n =? 9) || (n =? 10) || (n =? 13) then remove_unsafe s'
      else String c (remove_unsafe s')
  end.

(** When the text before the first colon is a scheme, the text after that
    colon; [None] when the prefix read so far is not a scheme. *)
Fixpoint after_scheme (s : string) : option string :=
  match s with
  | EmptyString => None
  | String c s' =>
      if Ascii.eqb c ":"%char then Some s'
      else if is_scheme_char c then after_scheme s' else None
  end.

Definition strip_scheme (url : string) : string :=
  match url with
  | String c _ =>
      if is_ascii_alpha c then
        match after_scheme url with Some rest => rest | None => url end
      else url
  | EmptyString => url
  end.

(** The text up to the first of [/], [?], [#]. *)
Fixpoint until_delim (s : string) : string :=
  match s with
  | EmptyString => EmptyString
  | String c s' =>
      if Ascii.eqb c "/"%char || Ascii.eqb c "?"%char || Ascii.eqb c "#"%char
      then EmptyString else String c (until_delim s')
  end.

(** The text from the first of [/], [?], [#] on. *)
Fixpoint from_delim (s : string) : string :=
  match s with
  | EmptyString => EmptyString
  | String c s' =>
      if Ascii.eqb c "/"%char || Ascii.eqb c "?"%char || Ascii.eqb c "#"%char
      then s else from_delim s'
  end.

(** The text up to the first of [?], [#]. *)
Fixpoint until_query (s : string) : string :=
  match s with
  | EmptyString => EmptyString
  | String c s' =>
      if Ascii.eqb c "?"%char || Ascii.eqb c "#"%char
      then EmptyString else String c (until_query s')
  end.

Definition cleaned (url : string) : string :=
  strip_scheme (remove_unsafe (lstrip_c0 url)).

(** [urlparse(url).netloc] *)
Definition netloc (url : string) : res string :=
  let rest := cleaned url in
  if startswith rest "//" then
    let loc := until_delim (drop 2 rest) in
    if xorb (contains loc "[") (contains loc "]")
    then Raise (ValueError "Invalid IPv6 URL")
    else Ret loc
  else Ret EmptyString.

(** The path component of a URL: what follows the authority, up to the
    query or the fragment (the split of [;] parameters is left out). *)
Definition path (url : string) : string :=
  let rest := cleaned url in
  until_query (if startswith rest "//" then from_delim (drop 2 rest) else rest).

End UrlParse.

(** ** ResultFilter: blacklists and the checks of the main loop *)

Module ResultFilter.
Import PyStr.

Definition blacklist_domains : list string :=
  [ "jstor.org"; "facebook.com"; "ftp.cs.princeton.edu";
    "nlp.cs.princeton.edu"; "huggingface.co" ].

Definition blacklist_files : list string :=
  [ "/glove.";
    "ftp://ftp.cs.princeton.edu/pub/cs226/autocomplete/words-333333.txt";
    "https://web.mit.edu/adamrose/Public/googlelist" ].

(** [misinfo_list]: the stripped, lower-cased, non-empty lines of the
    misinfo file; the empty list when the file does not exist. *)
Definition load_misinfo (file : option (list string)) : list string :=
  match file with
  | Some lines =>
      map (fun line => lower (strip line))
          (filter (fun line => strip line <> EmptyString) lines)
  | None => []
  end.

Definition get_domain_name (url : string) : res string :=
  let url := if contains url "://" then url else "http://" +:+ url in
  do domain <- UrlParse.netloc url;
  Ret (if startswith domain "www." then drop 4 domain else domain).

(** [x in xs] for a list of strings. *)
Definition in_list (x : string) (xs : list string) : bool :=
  existsb (String.eqb x) xs.

(** The extension check: [link.lower().endswith((".pdf", ".doc", ".docx"))]. *)
Definition has_blocked_extension (link : string) : bool :=
  endswith_any (lower link) [".pdf"; ".doc"; ".docx"].

(** The checks applied to one link, in the order of the loop body; [true]
    when the link passes all of them and reaches the store.  The list
    [misinfo_list] is in scope of the loop and is not read by it. *)
Definition accepts (misinfo_list : list string) (link : string) : res bool :=
  if String.eqb link EmptyString then Ret false
  else
    do domain <- get_domain_name link;
    if in_list domain blacklist_domains then Ret false
    else if existsb (fun bf => contains link bf) blacklist_files then Ret false
    else if has_blocked_extension link then Ret false
    else Ret true.

End ResultFilter.

(** ** Monadic loops *)

(** A [for] loop whose body may raise: the first exception ends the loop. *)
Fixpoint for_each {A S : Type} (body : S -> A -> res S) (items : list A) (s : S)
  : res S :=
  match items with
  | [] => Ret s
  | x :: rest => do s' <- body s x; for_each body rest s'
  end.

(** ** ResumeLog: the parsing of the resume file *)

Module ResumeLog.
Import PyStr.

(** The dictionary [next_claim]: its ["claim"] entry ([None] at the start)
    and its ["lines"] list. *)
Record group : Type := Group { g_claim : option string; g_lines : list string }.

Record parse_state : Type :=
  ParseState { existing : gmap string group; next_claim : group }.

Definition init_state : parse_state := ParseState ∅ (Group None []).

(** [parts[1]] *)
Definition second_field (parts : list string) : res string :=
  match parts with
  | _ :: claim :: _ => Ret claim
  | _ => Raise (IndexError "list index out of range")
  end.

(** The truth value of a string: false for the empty string (and
    [next_claim["claim"]] is also false while it is [None]). *)
Definition truthy (s : string) : bool :=
  match s with
  | String _ _ => true
  | EmptyString => false
  end.

(** The claim text of a line: [line.strip().split("\t")[1]]. *)
Definition claim_of (line : string) : res string :=
  second_field (split tab (strip line)).

(** The loop body for one line after the first. *)
Definition parse_line (st : parse_state) (line : string) : res parse_state :=
  do claim <- claim_of line;
  let st1 :=
    if decide (Some claim = g_claim (next_claim st)) then st
    else
      let ex :=
        match g_claim (next_claim st) with
        | Some key => if truthy key
                      then <[key := next_claim st]> (existing st)
                      else existing st
        | None => existing st
        end in
      ParseState ex (Group (Some claim) []) in
  Ret (ParseState (existing st1)
         (Group (g_claim (next_claim st1))
                (g_lines (next_claim st1) ++ [strip line]))).

(** The dictionary [existing] after the loop over the lines of the resume
    file: the first line is skipped by the [first] flag. *)
Definition parse_resume (file_lines : list string) : res (gmap string group) :=
  match file_lines with
  | [] => Ret ∅
  | _ :: rest => do st <- for_each parse_line rest init_state; Ret (existing st)
  end.

(** [existing] for the command line: empty without [--resume]. *)
Definition load_existing (resume : option (list string))
  : res (gmap string group) :=
  match resume with
  | Some file_lines => parse_resume file_lines
  | None => Ret ∅
  end.

(** The lines printed for a claim found in [existing]; [None] when the
    claim is not a key and the claim is processed from scratch. *)
Definition replay (ex : gmap string group) (claim : string)
  : option (list string) :=
  g_lines <$> ex !! claim.

End ResumeLog.

(** ** SearchDispatcher: [get_google_search_results] *)

Module SearchDispatcher.
Import PyStr.

(** One entry of the provider's answer; [link] is [None] when the entry has
    no ["link"] key. *)
Record search_result : Type := SearchResult { link : option string }.

(** The arguments of one call of [google_search]. *)
Record search_call : Type := SearchCall {
  sc_term : string; sc_api_key : string; sc_cse_id : string;
  sc_num : nat; sc_start : nat; sc_sort : string; sc_gl : string }.

(** What the control thread does to the outside: a provider call, or a
    pause of so many seconds. *)
Inductive event : Type :=
| Query (call : search_call)
| Sleep (seconds : nat).

Section Provider.
(** [google_search], the wrapper of the provider's API that the script
    passes to [get_google_search_results], is a transition on some state [W]
    of the outside world: a call answers with a list of results or raises. *)
Variable W : Type.
Variable google_search : search_call -> W -> res (list search_result) * W.

(** [n] rounds of the [for _ in range(3)] loop. *)
Fixpoint attempts (n : nat) (call : search_call) (w : W)
  : list search_result * W * list event :=
  match n with
  | O => ([], w, [])
  | S n' =>
      match google_search call w with
      | (Ret items, w') => (items, w', [Query call])
      | (Raise _, w') =>
          let '(items, w'', evs) := attempts n' call w' in
          (items, w'', Query call :: Sleep 3 :: evs)
      end
  end.

Definition get_google_search_results
    (api_key search_engine_id sort_date search_string : string) (page : nat)
    (w : W) : list search_result * W * list event :=
  attempts 3
    (SearchCall search_string api_key search_engine_id 10 (0 + 10 * page)
       ("date:r:19000101:" +:+ sort_date) "US")
    w.
End Provider.

Definition searches (evs : list event) : nat :=
  length (List.filter (fun e => match e with Query _ => true | Sleep _ => false end) evs).

End SearchDispatcher.

(** ** QueryGenerator: [string_to_search_query] and the query list *)

Module QueryGenerator.
Import PyStr.

(** [author] is true: a string that is not empty. *)
Definition truthy_author (a : string) : bool :=
  negb (String.eqb a EmptyString).

Section Tokenizer.
Variable word_tokenize : string -> list string.
Variable pos_tag : list string -> list (string * string).

Definition keep_tags : list string := ["CD"; "JJ"; "NN"; "VB"].

Definition string_to_search_query (text : string) (author : option string)
  : string :=
  let parts := word_tokenize (strip text) in
  let tags := pos_tag parts in
  let search_string :=
    match author with
    | Some a => if truthy_author a then split_ws a else []
    | None => []
    end in
  join " "
    (search_string ++
     map fst
       (List.filter
          (fun tt => existsb (fun k => startswith (snd (snd tt)) k) keep_tags)
          (combine parts tags))).

(** [search_strings] zipped with [search_types] for a claim. *)
Definition queries (claim : string) (speaker : option string)
    (questions : list string) : list (string * string) :=
  (match speaker with
   | Some sp => [(string_to_search_query claim (Some sp), "claim+author")]
   | None => []
   end)
  ++ [(string_to_search_query claim None, "claim"); (claim, "claim-noformat")]
  ++ map (fun question => (question, "question")) questions.
End Tokenizer.

End QueryGenerator.

(** ** FetchWorkerPool: [get_and_store] and the drain loop *)

Module FetchWorker.
Import PyStr.

(** An item of the list that [url2lines] returns: a string, or a value of
    another class, given by the name of the class. *)
Inductive line_item : Type :=
| Text (s : string)
| NotText (type_name : string).

(** What [url2lines] returns: a list, or some other value given by its
    [str]. *)
Inductive page : Type :=
| Lines (items : list line_item)
| NotList (text : string).

(** The tuple returned by [get_and_store]. *)
Record outcome : Type :=
  Outcome { o_fp : string; o_url : string; o_ok : bool; o_msg : string }.

(** [page_lines] after the [isinstance] test. *)
Definition as_items (pg : page) : list line_item :=
  match pg with
  | Lines items => items
  | NotList text => [Text text]
  end.

(** The strings that [join] reads from the items that follow the first
    [index] ones: [join] raises [TypeError] at the first item that is not a
    string. *)
Fixpoint joined_items (index : nat) (items : list line_item)
  : res (list string) :=
  match items with
  | [] => Ret []
  | Text s :: rest => do ls <- joined_items (S index) rest; Ret (s :: ls)
  | NotText type_name :: _ =>
      Raise (Exn "TypeError"
               ("sequence item " +:+ str_of_nat index
                +:+ ": expected str instance, " +:+ type_name +:+ " found"))
  end.

Section Extractor.
(** The page extractor; the exception (if any) with which opening a path
    for writing fails; and the exception (if any) with which writing a
    text to an opened path fails, with what the file then holds. *)
Variable url2lines : string -> res page.
Variable open_error : string -> option exn.
Variable write_error : string -> string -> option (exn * string).

(** The [try] block, on files that are a map from paths to contents: the
    exception that leaves the block, if any, and the files after it.
    Opening the path empties the file before the text is joined and
    written. *)
Definition try_block (url_link fp : string) (files : gmap string string)
  : res unit * gmap string string :=
  match url2lines url_link with
  | Raise e => (Raise e, files)
  | Ret pg =>
      match open_error fp with
      | Some e => (Raise e, files)
      | None =>
          let opened := <[fp := EmptyString]> files in
          match joined_items 1 (as_items pg) with
          | Raise e => (Raise e, opened)
          | Ret page_lines =>
              let text := join newline (url_link :: page_lines) in
              match write_error fp text with
              | Some (e, remains) => (Raise e, <[fp := remains]> files)
              | None => (Ret tt, <[fp := text]> files)
              end
          end
      end
  end.

Definition get_and_store (url_link fp : string) (files : gmap string string)
  : res (outcome * gmap string string) :=
  match try_block url_link fp files with
  | (Ret _, files') => Ret (Outcome fp url_link true "ok", files')
  | (Raise e, files') =>
      Ret (Outcome fp url_link false (exn_type e +:+ ": " +:+ exn_msg e),
           files')
  end.
End Extractor.

(** The line printed for one completed future: [result] is what
    [fut.result()] gives, the returned tuple or an exception of the pool. *)
Definition drain_line (idx : Z) (store_fp : string) (result : res outcome)
  : string :=
  match result with
  | Ret o =>
      if o_ok o
      then "[OK] " +:+ str_of_Z idx +:+ " | " +:+ o_url o
           +:+ " -> salvo em " +:+ o_fp o
      else "[FAIL] " +:+ str_of_Z idx +:+ " | " +:+ o_url o
           +:+ " -> " +:+ o_msg o
  | Raise e =>
      "[EXC] " +:+ str_of_Z idx +:+ " | " +:+ store_fp +:+ " -> " +:+ exn_msg e
  end.

End FetchWorker.

(** ** Orchestrator: the main loop, with the per-claim URL store *)

Module Orchestrator.
Import PyStr SearchDispatcher.

(** One record of the claim file. *)
Record example : Type := MkExample {
  claim : string;
  speaker : option string;
  check_date : option string;
  questions : list string }.

(** The command line and the API configuration.  [start_idx] and
    [n_to_compute] are the integers of the command line, negative values
    included; [n_pages] is the number of rounds of [range(args.n_pages)],
    which is none for a negative value. *)
Record config : Type := Config {
  n_pages : nat;
  store_folder : string;
  start_idx : Z;
  n_to_compute : Z;               (* -1 is the default: no upper bound *)
  api_key : string;
  search_engine_id : string;
  misinfo_list : list string }.

(** The tuple stored in [future_to_meta] for a submitted future, with the
    arguments of its [get_and_store] call. *)
Record fetch_task : Type := FetchTask {
  t_url : string; t_path : string;
  t_idx : Z; t_claim : string; t_page : nat;
  t_search_string : string; t_search_type : string }.

(** A bound of a slice of a list of [len] items: a negative bound counts
    from the end of the list, and the result is kept between 0 and [len]. *)
Definition slice_bound (len : nat) (i : Z) : nat :=
  if (i <? 0)%Z then Z.to_nat (i + Z.of_nat len)
  else Nat.min (Z.to_nat i) len.

(** [l[start:stop]], with [None] for an absent [stop]. *)
Definition py_slice {A : Type} (l : list A) (start : Z) (stop : option Z)
  : list A :=
  let lo := slice_bound (length l) start in
  let hi := match stop with
            | Some e => slice_bound (length l) e
            | None => length l
            end in
  firstn (hi - lo) (skipn lo l).

(** [os.path.join(folder, name)] for a relative [name]. *)
Definition path_join (folder name : string) : string :=
  if String.eqb folder EmptyString || endswith folder "/"
  then folder +:+ name
  else folder +:+ "/" +:+ name.

Definition store_file_path (cfg : config) (idx : Z) (store_counter : nat)
  : string :=
  path_join (store_folder cfg)
    ("search_result_" +:+ str_of_Z idx +:+ "_" +:+ str_of_nat store_counter
     +:+ ".store").

(** The printed line of one accepted result. *)
Definition result_line (idx : Z) (claim link : string) (page_num : nat)
    (search_string search_type store_file : string) : string :=
  join (String tab EmptyString)
    [str_of_Z idx; claim; link; str_of_nat page_num; search_string;
     search_type; store_file].

Definition header_line : string :=
  join (String tab EmptyString)
    ["index"; "claim"; "link"; "page"; "search_string"; "search_type";
     "store_file"].

Section Run.
Variable W : Type.
Variable google_search : search_call -> W -> res (list search_result) * W.
Variable word_tokenize : string -> list string.
Variable pos_tag : list string -> list (string * string).
Variable cfg : config.

(** What the run accumulates: the printed lines, the submitted futures
    in submission order, the provider's state and the events so far. *)
Record run_state : Type := RunState {
  out : list string;
  futures : list fetch_task;
  world : W;
  events : list event }.

(** The state inside one claim: [visited] and [store_counter]. *)
Record claim_state : Type := ClaimState {
  visited : gmap string string;
  store_counter : nat;
  run : run_state }.

(** The body of [for result in results]. *)
Definition handle_result (idx : Z) (claim : string) (page_num : nat)
    (search_string search_type : string)
    (st : claim_state) (result : search_result) : res claim_state :=
  let link := default EmptyString (link result) in
  do ok <- ResultFilter.accepts (misinfo_list cfg) link;
  if ok then
    let st1 :=
      match visited st !! link with
      | Some _ => st
      | None =>
          let counter := S (store_counter st) in
          let store_file := store_file_path cfg idx counter in
          ClaimState (<[link := store_file]> (visited st)) counter
            (RunState (out (run st))
               (futures (run st) ++
                [FetchTask link store_file idx claim page_num
                   search_string search_type])
               (world (run st)) (events (run st)))
      end in
    match visited st1 !! link with
    | Some store_file =>
        Ret (ClaimState (visited st1) (store_counter st1)
               (RunState
                  (out (run st1) ++
                   [result_line idx claim link page_num search_string
                      search_type store_file])
                  (futures (run st1)) (world (run st1)) (events (run st1))))
    | None => Raise (Exn "KeyError" (repr link))
    end
  else Ret st.

(** Inside a claim that started from [rs0], the state of the store agrees
    with what the claim has submitted and printed so far: [new] are the
    tasks and [printed] the lines added since the claim began. *)
Definition store_consistent (idx : Z) (claim : string) (rs0 : run_state)
    (st : claim_state) (new : list fetch_task) (printed : list string)
  : Prop :=
  futures (run st) = futures rs0 ++ new
  /\ out (run st) = out rs0 ++ printed
  /\ t_path <$> new
     = store_file_path cfg idx <$> seq 1 (store_counter st)
  /\ NoDup (t_url <$> new)
  /\ (forall u p, visited st !! u = Some p
                  <-> exists t, t ∈ new /\ t_url t = u /\ t_path t = p)
  /\ Forall (fun line =>
               exists link page_num search_string search_type p,
                 line = result_line idx claim link page_num search_string
                          search_type p
                 /\ visited st !! link = Some p) printed.

(** The body of [for page_num in range(args.n_pages)]. *)
Definition handle_page (idx : Z) (claim sort_date : string)
    (query : string * string) (st : claim_state) (page_num : nat)
  : res claim_state :=
  let '(results, w', evs) :=
    get_google_search_results W google_search (api_key cfg)
      (search_engine_id cfg) sort_date (fst query) page_num
      (world (run st)) in
  let st' :=
    ClaimState (visited st) (store_counter st)
      (RunState (out (run st)) (futures (run st)) w'
         (events (run st) ++ evs)) in
  for_each (handle_result idx claim page_num (fst query) (snd query))
    results st'.

(** The body of the loop over the queries. *)
Definition handle_query (idx : Z) (claim sort_date : string)
    (st : claim_state) (query : string * string) : res claim_state :=
  for_each (handle_page idx claim sort_date query) (seq 0 (n_pages cfg)) st.

(** A claim that is not replayed: date, queries, and the search loops
    started with an empty [visited] and a zero [store_counter]. *)
Definition search_claim (idx : Z) (ex : example) (rs : run_state)
  : res claim_state :=
  let speaker :=
    let sp := strip (default EmptyString (speaker ex)) in
    if String.eqb sp EmptyString then None else Some sp in
  do sort_date <- DateNormalizer.sort_date (check_date ex);
  for_each (handle_query idx (claim ex) sort_date)
    (QueryGenerator.queries word_tokenize pos_tag (claim ex) speaker
       (questions ex))
    (ClaimState ∅ 0 rs).

(** The body of the loop over the examples. *)
Definition process_claim (existing : gmap string ResumeLog.group)
    (rs : run_state) (item : Z * example) : res run_state :=
  match ResumeLog.replay existing (claim (snd item)) with
  | Some lines =>
      Ret (RunState (out rs ++ lines) (futures rs) (world rs) (events rs))
  | None =>
      do st <- search_claim (fst item) (snd item) rs;
      Ret (run st)
  end.

(** [enumerate(examples[start_idx:end_idx], start=start_idx)] *)
Definition selected (examples : list example) : list (Z * example) :=
  let end_idx :=
    if (n_to_compute cfg =? -1)%Z then None
    else Some (start_idx cfg + n_to_compute cfg)%Z in
  let chosen := py_slice examples (start_idx cfg) end_idx in
  combine (map (fun i => (start_idx cfg + Z.of_nat i)%Z)
             (seq 0 (length chosen)))
    chosen.

(** The run up to the end of the loop over the examples. *)
Definition main_loop (resume : option (list string))
    (examples : list example) (w : W) : res run_state :=
  do existing <- ResumeLog.load_existing resume;
  for_each (process_claim existing) (selected examples)
    (RunState [header_line] [] w []).
End Run.

End Orchestrator.

(** ** The pool seen from the drain loop *)

Module Drain.
Import PyStr FetchWorker Orchestrator.

Section Pool.
Variable url2lines : string -> res page.
Variable open_error : string -> option exn.
Variable write_error : string -> string -> option (exn * string).
(** The exception of the pool itself for a task whose worker process is
    lost before it returns, if any. *)
Variable pool_fault : fetch_task -> option exn.

(** What [fut.result()] gives for a task, and the files after it. *)
Definition run_task (t : fetch_task) (files : gmap string string)
  : res outcome * gmap string string :=
  match pool_fault t with
  | Some e => (Raise e, files)
  | None =>
      match get_and_store url2lines open_error write_error (t_url t) (t_path t)
              files with
      | Ret (o, files') => (Ret o, files')
      | Raise e => (Raise e, files)
      end
  end.

(** The loop over [as_completed(future_to_meta)]: [completed] lists the
    submitted tasks in the order in which they complete. *)
Fixpoint drain (completed : list fetch_task) (files : gmap string string)
  : list string * gmap string string :=
  match completed with
  | [] => ([], files)
  | t :: rest =>
      let '(result, files') := run_task t files in
      let '(printed, files'') := drain rest files' in
      (drain_line (t_idx t) (t_path t) result :: printed, files'')
  end.
End Pool.

End Drain.

(** ** Notions of the specification

    The definitions below do not come from the code: they spell out words
    of the specification, to be compared with the code. *)

Module Spec.
Import PyStr.

(** A raw date with the given year, month and day fields. *)
Definition ymd (y m d : string) : string := y +:+ "-" +:+ m +:+ "-" +:+ d.

(** A raw date that "fails to parse" in the words of the specification:
    not three fields, or a field that is not a number. *)
Definition unparseable (raw : string) : bool :=
  negb (length (split "-"%char raw) =? 3)
  || existsb (fun field => match int field with Raise _ => true | Ret _ => false end)
       (split "-"%char raw).

(** The extension rule in the words of the specification: the path of the
    URL ends, case-insensitively, with one of the extensions. *)
Definition path_has_blocked_extension (url : string) : bool :=
  endswith_any (lower (UrlParse.path url)) [".pdf"; ".doc"; ".docx"].

(** A link that reaches the file-extension rule of the filter: it is not
    empty, its domain is read and is not in the domain blacklist, and the
    link holds none of the blacklisted substrings. *)
Definition reaches_extension_rule (link : string) : Prop :=
  link <> EmptyString
  /\ exists domain,
       ResultFilter.get_domain_name link = Ret domain
       /\ ResultFilter.in_list domain ResultFilter.blacklist_domains = false
       /\ existsb (fun bf => contains link bf) ResultFilter.blacklist_files
          = false.

(** The events of [k] failed attempts: each call is followed by a pause of
    three seconds. *)
Definition failed_rounds (call : SearchDispatcher.search_call) (k : nat)
  : list SearchDispatcher.event :=
  concat (repeat [SearchDispatcher.Query call; SearchDispatcher.Sleep 3] k).

(** A line of the output as a file holds it: the fields joined by tabs,
    with the line break of [print]. *)
Definition file_line (fields : list string) : string :=
  join (String tab EmptyString) fields +:+ newline.

End Spec.

(** ** A small run, used in the examples *)

Module Demo.
Import PyStr SearchDispatcher Orchestrator.

(** A provider that answers every call with the same three results, two
    of them with the same link. *)
Definition demo_search (call : search_call) (w : unit)
  : res (list search_result) * unit :=
  (Ret [SearchResult (Some "http://a.example/1");
        SearchResult (Some "http://b.example/2");
        SearchResult (Some "http://a.example/1")], w).

(** A tokenizer that splits at white space and tags every token as a noun. *)
Definition demo_tokenize (text : string) : list string := split_ws text.
Definition demo_tag (tokens : list string) : list (string * string) :=
  map (fun token => (token, "NN")) tokens.

Definition demo_cfg : config :=
  Config 1 "store" 0 (-1) "key" "cx" [].

Definition demo_example : example :=
  MkExample "A claim" None (Some "22-3-4") [].

Definition demo_start : run_state unit :=
  RunState unit [header_line] [] tt [].

End Demo.

(** ** Shapes of strings and runs, used to state further properties *)

Module Shapes.
Import PyStr SearchDispatcher.

(** A decimal digit. *)
Definition is_digit (c : ascii) : bool :=
  match digit_of c with Some _ => true | None => false end.

Fixpoint all_chars (p : ascii -> bool) (s : string) : bool :=
  match s with
  | EmptyString => true
  | String c s' => p c && all_chars p s'
  end.

(** A character that the URL parser keeps inside a host name: no tab or
    line break, no [/], [?], [#], and no square bracket. *)
Definition host_char (c : ascii) : bool :=
  let n := nat_of_ascii c in
  negb ((n =? 9) || (n =? 10) || (n =? 13) || (n =? 47) || (n =? 63)
        || (n =? 35) || (n =? 91) || (n =? 93)).

(** What may follow a host name in a URL: nothing, or text that starts
    with [/], [?] or [#]. *)
Definition after_host (rest : string) : bool :=
  match rest with
  | EmptyString => true
  | String c _ =>
      Ascii.eqb c "/"%char || Ascii.eqb c "?"%char || Ascii.eqb c "#"%char
  end.

Section Provider.
Variable W : Type.
Variable google_search : search_call -> W -> res (list search_result) * W.

(** The state of the provider after [k] calls in a row that all raise;
    [None] when one of them answers. *)
Fixpoint after_failures (k : nat) (call : search_call) (w : W) : option W :=
  match k with
  | O => Some w
  | S k' =>
      match google_search call w with
      | (Raise _, w') => after_failures k' call w'
      | (Ret _, _) => None
      end
  end.
End Provider.

Section Tokenizer.
Variable word_tokenize : string -> list string.
Variable pos_tag : list string -> list (string * string).

(** The tokens that [string_to_search_query] keeps from a text: those whose
    tag starts with one of [keep_tags]. *)
Definition kept_tokens (text : string) : list string :=
  let parts := word_tokenize (strip text) in
  map fst
    (List.filter
       (fun tt => existsb (fun k => startswith (snd (snd tt)) k)
                    QueryGenerator.keep_tags)
       (combine parts (pos_tag parts))).
End Tokenizer.

End Shapes.

(** ** Shapes of the events of a run *)

Module RunShapes.
Import PyStr SearchDispatcher Orchestrator.

(** An event that the search of a claim may produce, for the date ceiling
    [sort_date] and the query strings [terms]: a call for ten results of
    one of the first [n_pages] pages of one of the queries, restricted to
    the dates up to the ceiling, or a pause of three seconds. *)
Definition well_formed_event (cfg : config) (sort_date : string)
    (terms : list string) (e : event) : Prop :=
  match e with
  | Query c =>
      In (sc_term c) terms
      /\ sc_api_key c = api_key cfg /\ sc_cse_id c = search_engine_id cfg
      /\ sc_num c = 10 /\ sc_gl c = "US"
      /\ sc_sort c = "date:r:19000101:" +:+ sort_date
      /\ exists page, page < n_pages cfg /\ sc_start c = 10 * page
  | Sleep seconds => seconds = 3
  end.

(** The queries of an example, as the search of the example builds them. *)
Definition queries_of (word_tokenize : string -> list string)
    (pos_tag : list string -> list (string * string)) (ex : example)
  : list (string * string) :=
  QueryGenerator.queries word_tokenize pos_tag (claim ex)
    (let sp := strip (default EmptyString (speaker ex)) in
     if String.eqb sp EmptyString then None else Some sp)
    (questions ex).

(** What varies between the printed lines of one claim: the link, the page,
    the query with its type, and the counter of the store file. *)
Record occurrence : Type := Occurrence {
  oc_link : string; oc_page : nat; oc_query : string; oc_type : string;
  oc_counter : nat }.

(** The line that the main loop prints for an occurrence. *)
Definition line_of (cfg : config) (idx : Z) (claim : string) (oc : occurrence)
  : string :=
  result_line idx claim (oc_link oc) (oc_page oc) (oc_query oc) (oc_type oc)
    (store_file_path cfg idx (oc_counter oc)).

(** What [print] writes for a line: the line and a line break. *)
Definition with_break (line : string) : string := line +:+ newline.

(** The text that printing the lines one after the other leaves in a
    file. *)
Fixpoint printed_text (lines : list string) : string :=
  match lines with
  | [] => EmptyString
  | line :: rest => with_break line +:+ printed_text rest
  end.

(** A string without a line feed and without a carriage return. *)
Definition no_break (s : string) : bool :=
  negb (has_char "010"%char s) && negb (has_char "013"%char s).

(** The lines that the iteration over a text file yields for its content:
    a line ends after a line feed, after a carriage return, or after a
    carriage return followed by a line feed, and each of these ends is read
    as a line feed; a last line without an end is yielded as it is. *)
Fixpoint read_lines (content : string) : list string :=
  match content with
  | EmptyString => []
  | String c rest =>
      if Ascii.eqb c "010"%char then newline :: read_lines rest
      else if Ascii.eqb c "013"%char then
        match rest with
        | String c' _ =>
            if Ascii.eqb c' "010"%char then read_lines rest
            else newline :: read_lines rest
        | EmptyString => [newline]
        end
      else
        match read_lines rest with
        | [] => [String c EmptyString]
        | line :: lines => String c line :: lines
        end
  end.

(** Items whose indices grow strictly, starting at [bound] or later. *)
Fixpoint ascending (bound : Z) (items : list (Z * example)) : Prop :=
  match items with
  | [] => True
  | item :: rest => (bound <= fst item)%Z /\ ascending (fst item + 1) rest
  end.

End RunShapes.

(** ** More small runs, used in the examples *)

Module Scenarios.
Import PyStr SearchDispatcher Orchestrator.

(** A provider that counts its calls, fails on the first two and answers
    from the third on. *)
Definition flaky_search (call : search_call) (calls : nat)
  : res (list search_result) * nat :=
  if calls <? 2
  then (Raise (Exn "HttpError" "rate limit"), S calls)
  else (Ret [SearchResult (Some "http://a.example/1")], S calls).

(** A second example, and a command line that starts at the second
    example of the file and visits two examples. *)
Definition other_example : example :=
  MkExample "Another claim" (Some "Jane Doe") (Some "1999-12-31")
    ["Who said it?"].



(** A resume file with the header, one line of the claim of
    [Demo.demo_example] and one line of another claim. *)
Definition resume_file : list string :=
  [ header_line +:+ newline;
    result_line 0 "A claim" "http://a.example/1" 0 "A claim" "claim-noformat"
      "store/search_result_0_1.store" +:+ newline;
    result_line 1 "Z" "http://z.example/1" 0 "Z" "claim-noformat"
      "store/search_result_1_1.store" +:+ newline ].

End Scenarios.

(** * Properties *)

(** ** Strings *)

Module PyStrFacts.
Import PyStr.

Lemma append_cons (c : ascii) (s t : string) :
  String c s +:+ t = String c (s +:+ t).
Proof. reflexivity. Qed.

Lemma append_empty_l (t : string) : EmptyString +:+ t = t.
Proof. reflexivity. Qed.

Lemma append_assoc (a b c : string) : (a +:+ b) +:+ c = a +:+ (b +:+ c).
Proof.
  induction a as [|x a IH]; [reflexivity|].
  rewrite !append_cons. now rewrite IH.
Qed.

Lemma append_inj_l (p a b : string) : p +:+ a = p +:+ b -> a = b.
Proof.
  induction p as [|x p IH]; [now rewrite !append_empty_l|].
  rewrite !append_cons. intros [= H]. now apply IH.
Qed.

Lemma length_append (a b : string) :
  String.length (a +:+ b) = String.length a + String.length b.
Proof.
  induction a as [|x a IH]; [reflexivity|].
  rewrite append_cons. simpl. now rewrite IH.
Qed.

Lemma append_inj_r (a b q : string) : a +:+ q = b +:+ q -> a = b.
Proof.
  revert b. induction a as [|x a IH]; intros [|y b] H.
  - reflexivity.
  - apply (f_equal String.length) in H.
    rewrite append_empty_l, append_cons in H. simpl in H.
    rewrite length_append in H. lia.
  - apply (f_equal String.length) in H.
    rewrite append_empty_l, append_cons in H. simpl in H.
    rewrite length_append in H. lia.
  - rewrite !append_cons in H. injection H as -> H. f_equal. now apply IH.
Qed.

Lemma split_nonempty (sep : ascii) (s : string) : split sep s <> [].
Proof.
  induction s as [|c s IH]; simpl; [discriminate|].
  destruct (Ascii.eqb c sep); [discriminate|].
  destruct (split sep s); [contradiction | discriminate].
Qed.

(** A string without the separator is a single field. *)
Lemma split_no_sep (sep : ascii) (s : string) :
  has_char sep s = false -> split sep s = [s].
Proof.
  induction s as [|c s IH]; simpl; [reflexivity|].
  intros H. apply orb_false_iff in H as [Hc Hs].
  rewrite Hc, (IH Hs). reflexivity.
Qed.

(** The first field ends at the first separator. *)
Lemma split_app (sep : ascii) (a b : string) :
  has_char sep a = false ->
  split sep (a +:+ String sep b) = a :: split sep b.
Proof.
  induction a as [|c a IH]; intros H.
  - rewrite append_empty_l. simpl. now rewrite Ascii.eqb_refl.
  - simpl in H. apply orb_false_iff in H as [Hc Ha].
    rewrite append_cons. simpl. rewrite Hc, (IH Ha). reflexivity.
Qed.

End PyStrFacts.

(** ** DateNormalizer *)

Module DateFacts.
Import PyStr PyStrFacts DateNormalizer Spec.

Lemma split_ymd (y m d : string) :
  has_char "-"%char y = false -> has_char "-"%char m = false ->
  has_char "-"%char d = false ->
  split "-"%char (ymd y m d) = [y; m; d].
Proof.
  intros Hy Hm Hd. unfold ymd.
  change ("-" +:+ m +:+ "-" +:+ d) with (String "-"%char (m +:+ String "-"%char d)).
  rewrite (split_app _ _ _ Hy), (split_app _ _ _ Hm), (split_no_sep _ _ Hd).
  reflexivity.
Qed.

Lemma sort_date_fields (raw y m d : string) :
  split "-"%char raw = [y; m; d] ->
  normalize_date raw =
    (do year' <- expand_year y; Ret (year' +:+ pad2 m +:+ pad2 d)).
Proof. intros H. unfold normalize_date, sort_date, split_date. now rewrite H. Qed.

Lemma sort_date_fallback (raw : string) :
  length (split "-"%char raw) <> 3 -> normalize_date raw = Ret "20220101".
Proof.
  intros H. unfold normalize_date, sort_date, split_date.
  destruct (split "-"%char raw) as [|a [|b [|c [|e l]]]]; simpl in H;
    try reflexivity.
  contradiction.
Qed.

(** The conversion of a two-character year is outside the [try]: a year of
    two characters that is not a number ends the run with [ValueError]. *)
Example two_char_year_raises :
  normalize_date "ab-1-1"
  = Raise (ValueError "invalid literal for int() with base 10: 'ab'").
Proof. vm_compute. reflexivity. Qed.

(** The separators U+001C to U+001F are removed by [strip] and are no
    white space for [int]: a year made of one of them and a digit is not a
    number. *)
Example int_keeps_separators :
  strip (String "028"%char "5") = "5"
  /\ exn_type <$> (match int (String "028"%char "5") with
                   | Raise e => Some e
                   | Ret _ => None
                   end) = Some "ValueError"
  /\ int (String "160"%char " 5 ") = Ret 5%Z.
Proof. repeat split; vm_compute; reflexivity. Qed.

(** C3, as stated, fails: the date "abcd-ef-gh" has three fields that are
    not numbers, and it is not replaced by the fixed date. *)
Lemma non_numeric_date_not_replaced :
  unparseable "abcd-ef-gh" = true
  /\ normalize_date "abcd-ef-gh" = Ret "abcdefgh"
  /\ normalize_date "abcd-ef-gh" <> Ret "20220101".
Proof. repeat split; vm_compute; congruence. Qed.

(** C3, amended: a raw date that does not split into exactly three fields
    at "-" (no delimiter, or a wrong number of fields) gives the fixed date
    "20220101" and does not raise.  For a raw date with three fields whose
    year does not have two characters, numeric or not, the normalization
    does not raise either and gives the year (with "200" before a year of
    one character) followed by the padded month and day. *)
Theorem wrong_arity_gives_fallback (raw : string) :
  (length (split "-"%char raw) <> 3 -> normalize_date raw = Ret "20220101")
  /\ (forall y m d, split "-"%char raw = [y; m; d] -> String.length y <> 2 ->
      normalize_date raw =
        Ret ((if String.length y =? 1 then "200" +:+ y else y)
             +:+ pad2 m +:+ pad2 d)).
Proof.
  split; [apply sort_date_fallback|].
  intros y m d Hs Hy. rewrite (sort_date_fields _ _ _ _ Hs).
  unfold expand_year.
  destruct (Nat.eqb_spec (String.length y) 2) as [E|_]; [contradiction|].
  now destruct (String.length y =? 1).
Qed.

Lemma wrong_arity_gives_fallback_witness :
  normalize_date "bad-date" = Ret "20220101"
  /\ normalize_date "2020-8-x" = Ret "2020080x".
Proof.
  split.
  - apply (proj1 (wrong_arity_gives_fallback "bad-date")). vm_compute. lia.
  - apply (proj2 (wrong_arity_gives_fallback "2020-8-x") "2020" "8" "x").
    + reflexivity.
    + vm_compute. lia.
Defined.

(** C9: the three examples of the specification, and the expansion rules
    for a raw date with fields [y], [m], [d]: a one-character year gets the
    prefix "200"; a two-character year with the number [v] gets "20" when
    [v <= 30] and "19" otherwise; a year of four or more characters is kept;
    a month or day of one character gets a leading "0". *)
Theorem date_normalizer_rules (y m d : string) :
  has_char "-"%char y = false -> has_char "-"%char m = false ->
  has_char "-"%char d = false ->
  normalize_date "22-3-4" = Ret "20220304"
  /\ normalize_date "1-1-1" = Ret "20010101"
  /\ normalize_date "bad-date" = Ret "20220101"
  /\ (String.length y = 1 ->
      normalize_date (ymd y m d) = Ret ("200" +:+ y +:+ pad2 m +:+ pad2 d))
  /\ (String.length y = 2 -> forall v, int y = Ret v ->
      normalize_date (ymd y m d) =
        Ret (((if (v <=? 30)%Z then "20" else "19") +:+ y)
             +:+ pad2 m +:+ pad2 d))
  /\ (4 <= String.length y ->
      normalize_date (ymd y m d) = Ret (y +:+ pad2 m +:+ pad2 d))
  /\ (forall c, pad2 (String c EmptyString) = String "0"%char (String c EmptyString))
  /\ (forall f, String.length f <> 1 -> pad2 f = f).
Proof.
  intros Hy Hm Hd.
  pose proof (sort_date_fields _ _ _ _ (split_ymd y m d Hy Hm Hd)) as E.
  repeat split.
  - intros L. rewrite E. unfold expand_year. now rewrite L.
  - intros L v Hv. rewrite E. unfold expand_year. rewrite L. simpl.
    now rewrite Hv.
  - intros L. rewrite E. unfold expand_year.
    destruct (Nat.eqb_spec (String.length y) 2) as [E2|_]; [lia|].
    destruct (Nat.eqb_spec (String.length y) 1) as [E1|_]; [lia|].
    reflexivity.
  - intros f L. unfold pad2.
    destruct (Nat.eqb_spec (String.length f) 1) as [E1|_]; [lia|]. reflexivity.
Qed.

Lemma date_normalizer_rules_witness :
  normalize_date (ymd "87" "12" "5") = Ret "19871205".
Proof.
  pose proof (date_normalizer_rules "87" "12" "5" eq_refl eq_refl eq_refl)
    as (_ & _ & _ & _ & H2 & _).
  exact (H2 eq_refl 87%Z eq_refl).
Defined.

End DateFacts.

(** ** ResultFilter *)

Module FilterFacts.
Import PyStr PyStrFacts ResultFilter Spec.

Lemma endswith_spec (s p : string) :
  endswith s p = true <-> exists stem, s = stem +:+ p.
Proof.
  split.
  - induction s as [|c s IH]; cbn [endswith]; intros H.
    + rewrite orb_false_r in H. apply String.eqb_eq in H. subst p.
      now exists EmptyString.
    + apply orb_true_iff in H as [H|H].
      * apply String.eqb_eq in H. now exists EmptyString.
      * destruct (IH H) as [stem ->]. now exists (String c stem).
  - intros [stem ->]. induction stem as [|c stem IH].
    + rewrite append_empty_l.
      destruct p; cbn [endswith]; rewrite String.eqb_refl; reflexivity.
    + rewrite append_cons. cbn [endswith]. rewrite IH. apply orb_true_r.
Qed.

(** The examples of the specification. *)
Example facebook_rejected : accepts [] "https://www.facebook.com/page" = Ret false.
Proof. vm_compute. reflexivity. Qed.

Example upper_case_pdf_rejected : accepts [] "http://example.com/report.PDF" = Ret false.
Proof. vm_compute. reflexivity. Qed.

Example article_accepted : accepts [] "http://example.com/article" = Ret true.
Proof. vm_compute. reflexivity. Qed.

(** The filter never reads [misinfo_list]. *)
Lemma accepts_ignores_misinfo (misinfo : list string) (link : string) :
  accepts misinfo link = accepts [] link.
Proof. reflexivity. Qed.

(** C2: with the misinfo file holding the line "FakeNews.example", the list
    [misinfo_list] is ["fakenews.example"], the domain of
    "http://fakenews.example/story" is in that list, and the link is accepted
    all the same: the loaded domains take no part in the filter. *)
Theorem misinfo_domain_is_accepted :
  let misinfo := load_misinfo (Some ["FakeNews.example" +:+ newline]) in
  misinfo = ["fakenews.example"]
  /\ (exists domain,
        get_domain_name "http://fakenews.example/story" = Ret domain
        /\ in_list (lower domain) misinfo = true)
  /\ accepts misinfo "http://fakenews.example/story" = Ret true.
Proof.
  repeat split.
  exists "fakenews.example". split; vm_compute; reflexivity.
Qed.

(** C4, as stated, fails: the path of
    "http://example.com/report.pdf?download=1" ends with ".pdf", and the
    extension check does not reject the link. *)
Lemma pdf_with_query_not_rejected :
  path_has_blocked_extension "http://example.com/report.pdf?download=1" = true
  /\ has_blocked_extension "http://example.com/report.pdf?download=1" = false
  /\ accepts [] "http://example.com/report.pdf?download=1" = Ret true.
Proof. repeat split; vm_compute; reflexivity. Qed.

(** Conversely a link is rejected for an extension that is in its query and
    not in its path. *)
Example query_extension_rejected :
  path_has_blocked_extension "http://example.com/view?file=a.pdf" = false
  /\ has_blocked_extension "http://example.com/view?file=a.pdf" = true.
Proof. split; vm_compute; reflexivity. Qed.

Lemma has_blocked_extension_spec (link : string) :
  has_blocked_extension link = true
  <-> exists stem ext,
        In ext [".pdf"; ".doc"; ".docx"] /\ lower link = stem +:+ ext.
Proof.
  unfold has_blocked_extension, endswith_any. rewrite existsb_exists. split.
  - intros (ext & Hin & He). apply endswith_spec in He as [stem Hs].
    now exists stem, ext.
  - intros (stem & ext & Hin & Hs). exists ext. split; [exact Hin|].
    apply endswith_spec. now exists stem.
Qed.

(** C4, amended: a link that reaches the extension rule of the filter is
    rejected by the filter exactly when the whole link, in lower case, ends
    with ".pdf", ".doc" or ".docx", and is accepted exactly when it does
    not end that way. *)
Theorem extension_check_is_suffix_of_link (misinfo : list string)
    (link : string) :
  reaches_extension_rule link ->
  (accepts misinfo link = Ret false
   <-> exists stem ext,
         In ext [".pdf"; ".doc"; ".docx"] /\ lower link = stem +:+ ext)
  /\ (accepts misinfo link = Ret true
      <-> ~ exists stem ext,
              In ext [".pdf"; ".doc"; ".docx"] /\ lower link = stem +:+ ext).
Proof.
  intros (Hne & domain & Hd & Hb & Hf).
  assert (E : accepts misinfo link = Ret (negb (has_blocked_extension link))).
  { unfold accepts. destruct link as [|c link]; [contradiction|].
    cbn [String.eqb]. rewrite Hd. cbn [bind]. rewrite Hb, Hf.
    now destruct (has_blocked_extension _). }
  rewrite E, <- has_blocked_extension_spec.
  destruct (has_blocked_extension link); cbn [negb]; split; split;
    intros H; try reflexivity; try discriminate; try congruence.
Qed.

Lemma extension_check_is_suffix_of_link_witness :
  accepts [] "http://example.com/Report.DOCX" = Ret false
  /\ accepts [] "http://example.com/report.pdf?download=1" = Ret true.
Proof.
  assert (R1 : reaches_extension_rule "http://example.com/Report.DOCX").
  { split; [discriminate|]. exists "example.com". repeat split. }
  assert (R2 : reaches_extension_rule
                 "http://example.com/report.pdf?download=1").
  { split; [discriminate|]. exists "example.com". repeat split. }
  split.
  - apply (proj1 (extension_check_is_suffix_of_link [] _ R1)).
    exists "http://example.com/report", ".docx". split.
    + simpl. tauto.
    + vm_compute. reflexivity.
  - apply (proj2 (extension_check_is_suffix_of_link [] _ R2)).
    intros (stem & ext & Hin & Hs).
    assert (Hx : has_blocked_extension
                   "http://example.com/report.pdf?download=1" = true).
    { apply has_blocked_extension_spec. now exists stem, ext. }
    vm_compute in Hx. discriminate.
Defined.

End FilterFacts.

(** ** ResumeLog *)

Module ResumeFacts.
Import PyStr PyStrFacts ResumeLog Orchestrator Spec.

Lemma for_each_raise {A S : Type} (body : S -> A -> res S) (items : list A)
    (s : S) (P : exn -> Prop) :
  (forall s' x e, body s' x = Raise e -> P e) ->
  (exists x, In x items /\ forall s', exists e, body s' x = Raise e) ->
  exists e, for_each body items s = Raise e /\ P e.
Proof.
  intros HP (x & Hin & Hx). revert s.
  induction items as [|y items IH]; intros s; [contradiction|].
  simpl. destruct (body s y) as [s'|e] eqn:E.
  - simpl. destruct Hin as [->|Hin].
    + destruct (Hx s) as [e He]. congruence.
    + now apply IH.
  - simpl. exists e. split; [reflexivity | eapply HP; eassumption].
Qed.

Lemma for_each_app {A S : Type} (body : S -> A -> res S) (xs ys : list A)
    (s s' : S) :
  for_each body xs s = Ret s' ->
  for_each body (xs ++ ys) s = for_each body ys s'.
Proof.
  revert s. induction xs as [|x xs IH]; intros s H.
  - simpl in H. now injection H as ->.
  - simpl in *. destruct (body s x); simpl in *; [now apply IH | discriminate].
Qed.

Lemma has_char_lstrip (c : ascii) (s : string) :
  has_char c s = false -> has_char c (lstrip s) = false.
Proof.
  induction s as [|a s IH]; simpl; [easy|].
  intros H. apply orb_false_iff in H as [Ha Hs].
  destruct (isspace a); [now apply IH|]. simpl. now rewrite Ha, Hs.
Qed.

Lemma has_char_rstrip (c : ascii) (s : string) :
  has_char c s = false -> has_char c (rstrip s) = false.
Proof.
  induction s as [|a s IH]; simpl; [easy|].
  intros H. apply orb_false_iff in H as [Ha Hs]. specialize (IH Hs).
  destruct (rstrip s) eqn:E.
  - destruct (isspace a); simpl; [reflexivity | now rewrite Ha].
  - simpl. rewrite Ha. exact IH.
Qed.

Lemma has_char_strip (c : ascii) (s : string) :
  has_char c s = false -> has_char c (strip s) = false.
Proof. intros H. now apply has_char_rstrip, has_char_lstrip. Qed.

Lemma parse_line_raises_only_IndexError st line e :
  parse_line st line = Raise e -> exn_type e = "IndexError".
Proof.
  unfold parse_line, claim_of.
  destruct (second_field _) as [c|e'] eqn:E; simpl; [easy|].
  intros [= <-]. unfold second_field in E.
  destruct (split tab (strip line)) as [|a [|b l]]; try discriminate;
    now injection E as <-.
Qed.

Lemma parse_line_no_tab st line :
  has_char tab line = false ->
  parse_line st line = Raise (IndexError "list index out of range").
Proof.
  intros H. unfold parse_line, claim_of.
  now rewrite (split_no_sep _ _ (has_char_strip _ _ H)).
Qed.

(** C10: when a line after the first one has no tab in it, the parsing of
    the resume file raises [IndexError]. *)
Theorem resume_line_without_tab_raises (first : string) (rest : list string) :
  (exists line, In line rest /\ has_char tab line = false) ->
  exists e, parse_resume (first :: rest) = Raise e
            /\ exn_type e = "IndexError".
Proof.
  intros (line & Hin & Hnt). unfold parse_resume.
  destruct (for_each_raise parse_line rest init_state
              (fun e => exn_type e = "IndexError")) as (e & He & Ht).
  - intros s' x e. apply parse_line_raises_only_IndexError.
  - exists line. split; [exact Hin|]. intros s'. eexists.
    now apply parse_line_no_tab.
  - exists e. now rewrite He.
Qed.

Lemma resume_line_without_tab_raises_witness :
  exists e,
    parse_resume
      [ file_line ["index"; "claim"; "link"];
        file_line ["0"; "A"; "http://a.example/1"];
        "[OK] 0 | http://a.example/1 -> salvo em store/x.store" +:+ newline ]
    = Raise e /\ exn_type e = "IndexError".
Proof.
  apply resume_line_without_tab_raises.
  eexists. split; [right; left; reflexivity | reflexivity].
Defined.

(** The lines of one claim that follow the first line of its group are
    added to the open group and store nothing. *)
Lemma same_claim_lines_extend (lines : list string) (ex : gmap string group)
    (c : string) (acc : list string) :
  Forall (fun line => claim_of line = Ret c) lines ->
  for_each parse_line lines (ParseState ex (Group (Some c) acc))
  = Ret (ParseState ex (Group (Some c) (acc ++ (strip <$> lines)))).
Proof.
  revert acc. induction lines as [|line lines IH]; intros acc Hall.
  - simpl. now rewrite app_nil_r.
  - apply Forall_cons in Hall as [Hc Hall]. simpl.
    unfold parse_line at 1. rewrite Hc. simpl.
    destruct (decide (Some c = Some c)) as [_|Hne]; [|congruence].
    simpl. rewrite (IH _ Hall). now rewrite <- app_assoc.
Qed.

(** The first line of a group closes the group before it: that group is
    stored when its claim text is not empty. *)
Lemma new_claim_line_closes (line : string) (ex : gmap string group)
    (prev : group) (c : string) :
  claim_of line = Ret c -> g_claim prev <> Some c ->
  parse_line (ParseState ex prev) line
  = Ret (ParseState
           (match g_claim prev with
            | Some key => if truthy key then <[key := prev]> ex else ex
            | None => ex
            end)
           (Group (Some c) [strip line])).
Proof.
  intros Hc Hne. unfold parse_line. rewrite Hc. simpl.
  destruct (decide (Some c = g_claim prev)) as [E|_]; [congruence|].
  reflexivity.
Qed.

(** A resume file with the lines of a claim [a] followed by the lines of a
    claim [b]: what the parsing stores. *)
Lemma two_groups_parse (first la : string) (las : list string)
    (lb : string) (lbs : list string) (a b : string) :
  Forall (fun line => claim_of line = Ret a) (la :: las) ->
  Forall (fun line => claim_of line = Ret b) (lb :: lbs) ->
  a <> b -> a <> EmptyString ->
  parse_resume (first :: (la :: las) ++ (lb :: lbs))
  = Ret (<[a := Group (Some a) (strip <$> la :: las)]> ∅).
Proof.
  intros Ha Hb Hab Hne.
  apply Forall_cons in Ha as [Ha Has]. apply Forall_cons in Hb as [Hb Hbs].
  unfold parse_resume. cbn [app for_each].
  unfold init_state. rewrite (new_claim_line_closes _ _ _ a Ha) by easy.
  cbn [bind g_claim].
  rewrite (for_each_app _ _ _ _ _
             (same_claim_lines_extend las ∅ a [strip la] Has)).
  cbn [for_each].
  rewrite (new_claim_line_closes _ _ _ b Hb) by (cbn; congruence).
  cbn [bind g_claim].
  rewrite (same_claim_lines_extend lbs _ b [strip lb] Hbs).
  cbn [bind existing]. destruct a; [contradiction|]. reflexivity.
Qed.

(** C1: the code departs from the claim at the last group.  In a resume
    file with the lines of a claim [a] followed by the lines of a claim [b],
    the group of [a] is stored and replayed, each line without its line
    break; the group of [b], the last one, is never stored, so [b] is not
    replayed and is searched again. *)
Theorem last_group_is_not_replayed (first la : string) (las : list string)
    (lb : string) (lbs : list string) (a b : string) :
  Forall (fun line => claim_of line = Ret a) (la :: las) ->
  Forall (fun line => claim_of line = Ret b) (lb :: lbs) ->
  a <> b -> a <> EmptyString ->
  exists ex,
    parse_resume (first :: (la :: las) ++ (lb :: lbs)) = Ret ex
    /\ replay ex a = Some (strip <$> la :: las)
    /\ replay ex b = None.
Proof.
  intros Ha Hb Hab Hne. eexists. split; [|split].
  - now apply (two_groups_parse _ _ _ _ _ a b).
  - unfold replay. now rewrite lookup_insert_eq.
  - unfold replay. rewrite lookup_insert_ne by exact Hab.
    now rewrite lookup_empty.
Qed.

Lemma last_group_is_not_replayed_witness :
  let a1 := ["0"; "A"; "http://a.example/1"; "0"; "A"; "claim-noformat";
             "store/search_result_0_1.store"] in
  let b1 := ["1"; "B"; "http://b.example/1"; "0"; "B"; "claim-noformat";
             "store/search_result_1_1.store"] in
  exists ex,
    parse_resume [header_line +:+ newline; file_line a1; file_line b1] = Ret ex
    /\ replay ex "A" = Some [join (String tab EmptyString) a1]
    /\ replay ex "B" = None.
Proof.
  intros a1 b1.
  apply (last_group_is_not_replayed (header_line +:+ newline)
           (file_line a1) [] (file_line b1) [] "A" "B").
  - repeat constructor.
  - repeat constructor.
  - discriminate.
  - discriminate.
Defined.

(** A resume file that holds one claim only replays nothing. *)
Example single_claim_file_is_empty :
  parse_resume
    [header_line +:+ newline;
     file_line ["0"; "A"; "http://a.example/1"];
     file_line ["0"; "A"; "http://a.example/2"]] = Ret ∅.
Proof. vm_compute. reflexivity. Qed.

(** C5, as stated, fails: in a resume file without a header the first data
    line of claim "A" is dropped and only the second one is replayed. *)
Lemma first_data_line_is_lost :
  let a1 := ["0"; "A"; "http://a.example/1"] in
  let a2 := ["0"; "A"; "http://a.example/2"] in
  let b1 := ["1"; "B"; "http://b.example/1"] in
  exists ex,
    parse_resume [file_line a1; file_line a2; file_line b1] = Ret ex
    /\ replay ex "A" = Some [join (String tab EmptyString) a2]
    /\ replay ex "A"
       <> Some [join (String tab EmptyString) a1; join (String tab EmptyString) a2].
Proof. eexists. repeat split; vm_compute; congruence. Qed.

(** C5, amended: the first line of the resume file is dropped whatever it
    is, header or not, and the result of the parsing does not depend on it;
    the lines after it are the ones that are grouped.  When they are the
    lines of a claim [a] followed by the lines of a claim [b], the group
    replayed for [a] is made of the lines after the first one, and of no
    other line. *)
Theorem first_line_always_skipped (first : string) (rest : list string) :
  (forall first', parse_resume (first :: rest) = parse_resume (first' :: rest))
  /\ (forall la las lb lbs a b,
        rest = (la :: las) ++ (lb :: lbs) ->
        Forall (fun line => claim_of line = Ret a) (la :: las) ->
        Forall (fun line => claim_of line = Ret b) (lb :: lbs) ->
        a <> b -> a <> EmptyString ->
        exists ex,
          parse_resume (first :: rest) = Ret ex
          /\ replay ex a = Some (strip <$> la :: las)).
Proof.
  split; [reflexivity|].
  intros la las lb lbs a b -> Ha Hb Hab Hne. eexists. split.
  - now apply (two_groups_parse _ _ _ _ _ a b).
  - unfold replay. now rewrite lookup_insert_eq.
Qed.

Lemma first_line_always_skipped_witness :
  let a1 := file_line ["0"; "A"; "http://a.example/1"] in
  let a2 := file_line ["0"; "A"; "http://a.example/2"] in
  let b1 := file_line ["1"; "B"; "http://b.example/1"] in
  exists ex,
    parse_resume [a1; a2; b1] = Ret ex
    /\ replay ex "A" = Some [strip a2].
Proof.
  intros a1 a2 b1.
  apply (proj2 (first_line_always_skipped a1 [a2; b1]) a2 [] b1 [] "A" "B").
  - reflexivity.
  - repeat constructor.
  - repeat constructor.
  - discriminate.
  - discriminate.
Defined.

End ResumeFacts.

(** ** SearchDispatcher *)

Module SearchFacts.
Import PyStr SearchDispatcher Spec.

Section Provider.
Variable W : Type.
Variable google_search : search_call -> W -> res (list search_result) * W.

Lemma searches_app (a b : list event) :
  searches (a ++ b) = searches a + searches b.
Proof. unfold searches. now rewrite List.filter_app, length_app. Qed.

Lemma searches_failed_rounds (call : search_call) (k : nat) :
  searches (failed_rounds call k) = k.
Proof.
  induction k as [|k IH]; [reflexivity|].
  unfold failed_rounds in *. simpl. unfold searches in *. simpl.
  now rewrite IH.
Qed.

(** [n] rounds: some number of failed attempts, then either a successful
    call or, after [n] failures, the empty list. *)
Lemma attempts_shape (n : nat) (call : search_call) (w : W) :
  exists failed,
    failed <= n
    /\ snd (attempts W google_search n call w)
       = failed_rounds call failed
         ++ (if failed <? n then [Query call] else [])
    /\ (failed = n -> fst (fst (attempts W google_search n call w)) = []).
Proof.
  revert w. induction n as [|n IH]; intros w.
  - exists 0. repeat split; reflexivity.
  - simpl. destruct (google_search call w) as [[items|e] w1].
    + exists 0. repeat split; [lia | discriminate].
    + destruct (IH w1) as (k & Hk & Hev & Hit).
      destruct (attempts W google_search n call w1) as [[items w2] evs].
      simpl in *. exists (S k). repeat split.
      * lia.
      * rewrite Hev. unfold failed_rounds. simpl.
        now destruct (Nat.ltb_spec k n), (Nat.ltb_spec (S k) (S n)); try lia.
      * intros [= ->]. now apply Hit.
Qed.

Lemma attempts_all_fail (n : nat) (call : search_call) (w : W) :
  (forall w0, exists e w1, google_search call w0 = (Raise e, w1)) ->
  fst (fst (attempts W google_search n call w)) = []
  /\ snd (attempts W google_search n call w) = failed_rounds call n.
Proof.
  intros Hfail. revert w. induction n as [|n IH]; intros w; [easy|].
  simpl. destruct (Hfail w) as (e & w1 & ->).
  destruct (IH w1) as [Hi He].
  destruct (attempts W google_search n call w1) as [[items w2] evs].
  simpl in *. subst. easy.
Qed.

(** C7: a search makes at most three calls of the provider; every failed
    call is followed by a pause of three seconds; a successful call ends
    the search, and after three failures the result is the empty list.
    The search returns a list in every case: the function has no way to
    raise.  When the provider fails on every call, the result is empty
    after exactly three calls. *)
Theorem search_retry_bounded
    (api_key cse_id sort_date search_string : string) (page : nat) (w : W) :
  let call := SearchCall search_string api_key cse_id 10 (10 * page)
                ("date:r:19000101:" +:+ sort_date) "US" in
  let run := get_google_search_results W google_search api_key cse_id
               sort_date search_string page w in
  searches (snd run) <= 3
  /\ (exists failed,
        failed <= 3
        /\ snd run = failed_rounds call failed
                     ++ (if failed <? 3 then [Query call] else [])
        /\ (failed = 3 -> fst (fst run) = []))
  /\ ((forall w0, exists e w1, google_search call w0 = (Raise e, w1)) ->
      fst (fst run) = [] /\ snd run = failed_rounds call 3).
Proof.
  intros call run. subst run. unfold get_google_search_results.
  change (0 + 10 * page) with (10 * page). fold call.
  destruct (attempts_shape 3 call w) as (k & Hk & Hev & Hit).
  split; [|split].
  - rewrite Hev, searches_app, searches_failed_rounds.
    destruct (k <? 3) eqn:E; [apply Nat.ltb_lt in E|]; cbn; lia.
  - now exists k.
  - intros Hfail. now apply attempts_all_fail.
Qed.
End Provider.

Lemma search_retry_bounded_witness :
  let failing := fun (_ : search_call) (w : unit) =>
                   (@Raise (list search_result) (Exn "HttpError" "quota"), w) in
  fst (fst (get_google_search_results unit failing "key" "cx" "20220101"
              "some claim" 0 tt)) = [].
Proof.
  intros failing.
  apply (search_retry_bounded unit failing "key" "cx" "20220101" "some claim" 0 tt).
  intros w0. now exists (Exn "HttpError" "quota"), w0.
Defined.

End SearchFacts.

(** ** FetchWorkerPool *)

Module FetchFacts.
Import PyStr FetchWorker Orchestrator Drain.

Section Pool.
Variable url2lines : string -> res page.
Variable open_error : string -> option exn.
Variable write_error : string -> string -> option (exn * string).
Variable pool_fault : fetch_task -> option exn.

Lemma get_and_store_returns (url fp : string) (files : gmap string string) :
  returns (get_and_store url2lines open_error write_error url fp files).
Proof.
  unfold returns, get_and_store.
  destruct (try_block _ _ _ _ _ _) as [[u|e] files']; eauto.
Qed.

(** The line printed for the [i]-th completed task is the line of that
    task's own result. *)
Lemma drain_line_of_task (completed : list fetch_task)
    (files : gmap string string) (i : nat) (t : fetch_task) :
  completed !! i = Some t ->
  exists files0,
    fst (drain url2lines open_error write_error pool_fault completed files) !! i
    = Some (drain_line (t_idx t) (t_path t)
              (fst (run_task url2lines open_error write_error pool_fault t
                      files0))).
Proof.
  revert files i. induction completed as [|t0 rest IH]; intros files i Hi;
    [discriminate|].
  cbn [drain].
  destruct (run_task url2lines open_error write_error pool_fault t0 files)
    as [r files1] eqn:Er.
  specialize (IH files1).
  destruct (drain url2lines open_error write_error pool_fault rest files1)
    as [ls files2].
  destruct i as [|i]; simpl in Hi.
  - injection Hi as <-. exists files. now rewrite Er.
  - destruct (IH i Hi) as [files0 H0]. exists files0. exact H0.
Qed.

Lemma drain_length (completed : list fetch_task) (files : gmap string string) :
  length (fst (drain url2lines open_error write_error pool_fault completed
                 files))
  = length completed.
Proof.
  revert files. induction completed as [|t rest IH]; intros files;
    [reflexivity|].
  cbn [drain].
  destruct (run_task url2lines open_error write_error pool_fault t files)
    as [r files1].
  specialize (IH files1).
  destruct (drain url2lines open_error write_error pool_fault rest files1)
    as [ls files2].
  simpl in *. now rewrite IH.
Qed.

Lemma try_block_success (url fp : string) (files : gmap string string)
    (pg : page) (page_lines : list string) :
  url2lines url = Ret pg -> open_error fp = None ->
  joined_items 1 (as_items pg) = Ret page_lines ->
  write_error fp (join newline (url :: page_lines)) = None ->
  try_block url2lines open_error write_error url fp files
  = (Ret tt, <[fp := join newline (url :: page_lines)]> files).
Proof.
  intros Hu Ho Hj Hw. unfold try_block. now rewrite Hu, Ho, Hj, Hw.
Qed.

(** C8, as stated, fails: with an extractor that returns the lines of the
    page and a store path that cannot be opened for writing, no file is
    written and the tuple reports a failure. *)
Lemma unwritable_path_reports_failure :
  let url2lines := fun _ : string => Ret (Lines [Text "first"; Text "second"]) in
  let open_error := fun _ : string =>
    Some (Exn "PermissionError" "[Errno 13] Permission denied: 'store/1'") in
  let write_error := fun _ _ : string => @None (exn * string) in
  url2lines "http://a.example/" = Ret (Lines [Text "first"; Text "second"])
  /\ get_and_store url2lines open_error write_error "http://a.example/"
       "store/1" ∅
     = Ret (Outcome "store/1" "http://a.example/" false
              "PermissionError: [Errno 13] Permission denied: 'store/1'", ∅).
Proof. split; reflexivity. Qed.

(** C8, amended: [get_and_store] returns a tuple for every task and never
    raises.  When the extractor returns strings and the store path is
    opened and written without error, the file holds the URL and then the
    extracted lines, and the tuple reports success.  When the extractor
    raises, or the opening of the path, the joining of the lines or the
    writing raises, the tuple reports failure with the name of the
    exception's class and its message; no file is touched in the first two
    cases, and the opened file is left empty when the joining fails.  The
    drain loop prints one line per completed task, and the line of a task
    whose worker returned is fixed by that task alone, whatever the other
    tasks did: "[FAIL]" with the error for a task whose extractor raised,
    "[OK]" with the path for a task that succeeded. *)
Theorem fetch_failures_are_contained
    (url fp : string) (files : gmap string string)
    (completed : list fetch_task) :
  returns (get_and_store url2lines open_error write_error url fp files)
  /\ (forall pg page_lines,
        url2lines url = Ret pg -> open_error fp = None ->
        joined_items 1 (as_items pg) = Ret page_lines ->
        write_error fp (join newline (url :: page_lines)) = None ->
        get_and_store url2lines open_error write_error url fp files
        = Ret (Outcome fp url true "ok",
               <[fp := join newline (url :: page_lines)]> files))
  /\ (forall e,
        url2lines url = Raise e ->
        get_and_store url2lines open_error write_error url fp files
        = Ret (Outcome fp url false (exn_type e +:+ ": " +:+ exn_msg e),
               files))
  /\ (forall pg e,
        url2lines url = Ret pg -> open_error fp = Some e ->
        get_and_store url2lines open_error write_error url fp files
        = Ret (Outcome fp url false (exn_type e +:+ ": " +:+ exn_msg e),
               files))
  /\ (forall pg e,
        url2lines url = Ret pg -> open_error fp = None ->
        joined_items 1 (as_items pg) = Raise e ->
        get_and_store url2lines open_error write_error url fp files
        = Ret (Outcome fp url false (exn_type e +:+ ": " +:+ exn_msg e),
               <[fp := EmptyString]> files))
  /\ (forall pg page_lines e remains,
        url2lines url = Ret pg -> open_error fp = None ->
        joined_items 1 (as_items pg) = Ret page_lines ->
        write_error fp (join newline (url :: page_lines)) = Some (e, remains) ->
        get_and_store url2lines open_error write_error url fp files
        = Ret (Outcome fp url false (exn_type e +:+ ": " +:+ exn_msg e),
               <[fp := remains]> files))
  /\ length (fst (drain url2lines open_error write_error pool_fault completed
                    files))
     = length completed
  /\ (forall i t,
        completed !! i = Some t -> pool_fault t = None ->
        (forall e,
           url2lines (t_url t) = Raise e ->
           fst (drain url2lines open_error write_error pool_fault completed
                  files) !! i
           = Some ("[FAIL] " +:+ str_of_Z (t_idx t) +:+ " | " +:+ t_url t
                   +:+ " -> " +:+ exn_type e +:+ ": " +:+ exn_msg e))
        /\ (forall pg page_lines,
              url2lines (t_url t) = Ret pg -> open_error (t_path t) = None ->
              joined_items 1 (as_items pg) = Ret page_lines ->
              write_error (t_path t) (join newline (t_url t :: page_lines))
              = None ->
              fst (drain url2lines open_error write_error pool_fault completed
                     files) !! i
              = Some ("[OK] " +:+ str_of_Z (t_idx t) +:+ " | " +:+ t_url t
                      +:+ " -> salvo em " +:+ t_path t))).
Proof.
  split; [apply get_and_store_returns|].
  split.
  { intros pg ls Hu Ho Hj Hw. unfold get_and_store.
    now rewrite (try_block_success url fp files pg ls Hu Ho Hj Hw). }
  split.
  { intros e He. unfold get_and_store, try_block. now rewrite He. }
  split.
  { intros pg e Hu Ho. unfold get_and_store, try_block. now rewrite Hu, Ho. }
  split.
  { intros pg e Hu Ho Hj. unfold get_and_store, try_block.
    now rewrite Hu, Ho, Hj. }
  split.
  { intros pg ls e remains Hu Ho Hj Hw. unfold get_and_store, try_block.
    now rewrite Hu, Ho, Hj, Hw. }
  split; [apply drain_length|].
  intros i t Hi Hp.
  destruct (drain_line_of_task completed files i t Hi) as [files0 ->].
  unfold run_task. rewrite Hp. split.
  - intros e He. unfold get_and_store, try_block. rewrite He. reflexivity.
  - intros pg ls Hu Ho Hj Hw. unfold get_and_store.
    rewrite (try_block_success _ _ files0 pg ls Hu Ho Hj Hw). reflexivity.
Qed.
End Pool.

Lemma fetch_failures_are_contained_witness :
  let url2lines := fun url : string =>
    if String.eqb url "http://a.example/"
    then Ret (Lines [Text "first"; Text "second"])
    else Raise (Exn "TimeoutError" "timed out") in
  let open_error := fun _ : string => @None exn in
  let write_error := fun _ _ : string => @None (exn * string) in
  let pool_fault := fun _ : fetch_task => @None exn in
  let ta := FetchTask "http://a.example/" "store/1" 0 "A" 0 "A" "claim" in
  let tb := FetchTask "http://b.example/" "store/2" 0 "A" 0 "A" "claim" in
  get_and_store url2lines open_error write_error "http://a.example/"
    "store/1" ∅
  = Ret (Outcome "store/1" "http://a.example/" true "ok",
         <["store/1" := join newline ["http://a.example/"; "first"; "second"]]> ∅)
  /\ get_and_store url2lines open_error write_error "http://b.example/"
       "store/2" ∅
     = Ret (Outcome "store/2" "http://b.example/" false
              "TimeoutError: timed out", ∅)
  /\ fst (drain url2lines open_error write_error pool_fault [tb; ta] ∅) !! 0
     = Some "[FAIL] 0 | http://b.example/ -> TimeoutError: timed out"
  /\ fst (drain url2lines open_error write_error pool_fault [tb; ta] ∅) !! 1
     = Some "[OK] 0 | http://a.example/ -> salvo em store/1".
Proof.
  intros url2lines open_error write_error pool_fault ta tb.
  pose proof (fetch_failures_are_contained url2lines open_error write_error
                pool_fault "http://a.example/" "store/1" ∅ [tb; ta])
    as (_ & Hok & _ & _ & _ & _ & _ & Hdrain).
  pose proof (fetch_failures_are_contained url2lines open_error write_error
                pool_fault "http://b.example/" "store/2" ∅ [])
    as (_ & _ & Hfail & _).
  split; [|split; [|split]].
  - apply (Hok (Lines [Text "first"; Text "second"]) ["first"; "second"]);
      reflexivity.
  - apply (Hfail (Exn "TimeoutError" "timed out")). reflexivity.
  - apply (proj1 (Hdrain 0 tb eq_refl eq_refl)
             (Exn "TimeoutError" "timed out")).
    reflexivity.
  - apply (proj2 (Hdrain 1 ta eq_refl eq_refl)
             (Lines [Text "first"; Text "second"]) ["first"; "second"]);
      reflexivity.
Defined.

End FetchFacts.

(** ** DedupStore *)

Module StoreFacts.
Import PyStr PyStrFacts ResultFilter SearchDispatcher Orchestrator.

Lemma to_uint_nonnil (n : nat) : Nat.to_uint n <> Decimal.Nil.
Proof.
  rewrite <- (DecimalNat.Unsigned.of_to n), DecimalNat.Unsigned.to_of.
  apply DecimalFacts.unorm_nonnil.
Qed.

Lemma str_of_nat_inj (a b : nat) : str_of_nat a = str_of_nat b -> a = b.
Proof.
  unfold str_of_nat. intros H.
  apply (f_equal NilZero.uint_of_string) in H.
  rewrite !NilZero.usu in H by apply to_uint_nonnil.
  injection H. apply DecimalNat.Unsigned.to_uint_inj.
Qed.

Lemma path_join_inj (folder a b : string) :
  path_join folder a = path_join folder b -> a = b.
Proof.
  unfold path_join. destruct (_ || _); intros H.
  - now apply append_inj_l in H.
  - now apply append_inj_l, append_inj_l in H.
Qed.

Lemma store_file_path_inj (cfg : config) (idx : Z) (a b : nat) :
  store_file_path cfg idx a = store_file_path cfg idx b -> a = b.
Proof.
  unfold store_file_path. intros H.
  apply path_join_inj in H.
  do 3 apply append_inj_l in H.
  apply append_inj_r in H. now apply str_of_nat_inj.
Qed.

Lemma for_each_invariant {A S : Type} (I : S -> Prop) (body : S -> A -> res S)
    (items : list A) (s s' : S) :
  (forall s1 x s2, I s1 -> body s1 x = Ret s2 -> I s2) ->
  I s -> for_each body items s = Ret s' -> I s'.
Proof.
  intros Hstep. revert s. induction items as [|x items IH]; intros s Hs.
  - simpl. now intros [= <-].
  - simpl. destruct (body s x) as [s1|e] eqn:E; simpl; [|discriminate].
    apply IH. eapply Hstep; eassumption.
Qed.

Section Run.
Variable W : Type.
Variable google_search : search_call -> W -> res (list search_result) * W.
Variable word_tokenize : string -> list string.
Variable pos_tag : list string -> list (string * string).
Variable cfg : config.

Abbreviation handle_result := (handle_result W cfg).
Abbreviation store_consistent := (store_consistent W cfg).

Lemma handle_result_rejected idx claim page_num q ty st r :
  accepts (misinfo_list cfg) (default EmptyString (link r)) = Ret false ->
  handle_result idx claim page_num q ty st r = Ret st.
Proof. intros H. unfold Orchestrator.handle_result. now rewrite H. Qed.

(** A link seen before in the claim: its path is read from [visited],
    nothing is submitted, one line is printed. *)
Lemma handle_result_seen idx claim page_num q ty st r p :
  accepts (misinfo_list cfg) (default EmptyString (link r)) = Ret true ->
  visited W st !! default EmptyString (link r) = Some p ->
  handle_result idx claim page_num q ty st r
  = Ret (ClaimState W (visited W st) (store_counter W st)
           (RunState W
              (out W (run W st) ++
               [result_line idx claim (default EmptyString (link r))
                  page_num q ty p])
              (futures W (run W st)) (world W (run W st))
              (events W (run W st)))).
Proof.
  intros Ha Hv. unfold Orchestrator.handle_result. rewrite Ha. simpl.
  now rewrite Hv, Hv.
Qed.

(** A link not seen before in the claim: the counter goes up by one, the
    new path is recorded, one task is submitted and one line is printed. *)
Lemma handle_result_new idx claim page_num q ty st r :
  accepts (misinfo_list cfg) (default EmptyString (link r)) = Ret true ->
  visited W st !! default EmptyString (link r) = None ->
  handle_result idx claim page_num q ty st r
  = Ret (let url := default EmptyString (link r) in
         let p := store_file_path cfg idx (S (store_counter W st)) in
         ClaimState W (<[url := p]> (visited W st)) (S (store_counter W st))
           (RunState W
              (out W (run W st) ++ [result_line idx claim url page_num q ty p])
              (futures W (run W st) ++
               [FetchTask url p idx claim page_num q ty])
              (world W (run W st)) (events W (run W st)))).
Proof.
  intros Ha Hv. unfold Orchestrator.handle_result. rewrite Ha. simpl.
  rewrite Hv. simpl. now rewrite lookup_insert_eq.
Qed.

Lemma handle_result_consistent idx claim rs0 page_num q ty st r st' new printed :
  store_consistent idx claim rs0 st new printed ->
  handle_result idx claim page_num q ty st r = Ret st' ->
  exists new' printed', store_consistent idx claim rs0 st' new' printed'.
Proof.
  intros (Hf & Ho & Hp & Hnd & Hv & Hl) Hr.
  set (url := default EmptyString (link r)) in *.
  destruct (accepts (misinfo_list cfg) url) as [[|]|e] eqn:Ha.
  - destruct (visited W st !! url) as [p|] eqn:Hu.
    + rewrite (handle_result_seen _ _ _ _ _ _ _ p Ha Hu) in Hr.
      injection Hr as <-. exists new, (printed ++ [result_line idx claim url page_num q ty p]).
      unfold Orchestrator.store_consistent.
      cbn [futures out visited store_counter run].
      repeat split; try assumption; try apply Hv.
      * rewrite Ho. now rewrite <- app_assoc.
      * apply Forall_app. split; [exact Hl|].
        apply Forall_singleton. now exists url, page_num, q, ty, p.
    + rewrite (handle_result_new _ _ _ _ _ _ _ Ha Hu) in Hr.
      injection Hr as <-. fold url.
      set (p := store_file_path cfg idx (S (store_counter W st))).
      exists (new ++ [FetchTask url p idx claim page_num q ty]),
             (printed ++ [result_line idx claim url page_num q ty p]).
      unfold Orchestrator.store_consistent.
      cbn [futures out visited store_counter run].
      assert (Hfresh : forall t, t ∈ new -> t_url t <> url).
      { intros t Ht E. assert (visited W st !! url = Some (t_path t)) as Hs.
        { apply Hv. now exists t. }
        congruence. }
      repeat split.
      * rewrite Hf. now rewrite <- app_assoc.
      * rewrite Ho. now rewrite <- app_assoc.
      * rewrite fmap_app, Hp. rewrite seq_S, fmap_app. reflexivity.
      * rewrite fmap_app. apply NoDup_app. split; [exact Hnd|]. split.
        -- intros u Hu1 Hu2. apply list_elem_of_fmap in Hu1 as (t & -> & Ht).
           apply list_elem_of_singleton in Hu2. now apply (Hfresh t).
        -- apply NoDup_singleton.
      * intros Hs. apply lookup_insert_Some in Hs as [[<- <-]|[Hne Hs]].
        -- eexists. split; [apply elem_of_app; right; now apply list_elem_of_singleton|].
           now simpl.
        -- apply Hv in Hs as (t & Ht & Hu1 & Hp1). exists t.
           split; [apply elem_of_app; now left | easy].
      * intros (t & Ht & Hu1 & Hp1). apply lookup_insert_Some.
        apply elem_of_app in Ht as [Ht|Ht].
        -- right. split; [intros E; apply (Hfresh t Ht); congruence|].
           apply Hv. now exists t.
        -- apply list_elem_of_singleton in Ht. subst t. simpl in *.
           left. now split.
      * apply Forall_app. split.
        -- eapply Forall_impl; [exact Hl|]. simpl.
           intros line (l & pg & q' & ty' & p' & -> & Hs).
           exists l, pg, q', ty', p'. split; [reflexivity|].
           rewrite lookup_insert_ne; [exact Hs | congruence].
        -- apply Forall_singleton. exists url, page_num, q, ty, p.
           split; [reflexivity | apply lookup_insert_eq].
  - rewrite (handle_result_rejected _ _ _ _ _ _ _ Ha) in Hr.
    injection Hr as <-. now exists new, printed.
  - unfold Orchestrator.handle_result in Hr. fold url in Hr.
    rewrite Ha in Hr. discriminate.
Qed.

Lemma handle_page_consistent idx claim sort_date rs0 query st page_num st' :
  (exists new printed, store_consistent idx claim rs0 st new printed) ->
  handle_page W google_search cfg idx claim sort_date query st page_num
  = Ret st' ->
  exists new printed, store_consistent idx claim rs0 st' new printed.
Proof.
  intros HI. unfold handle_page.
  destruct (get_google_search_results _ _ _ _ _ _ _ _) as [[results w'] evs].
  apply (for_each_invariant
           (fun s => exists new printed,
                       store_consistent idx claim rs0 s new printed)).
  - intros s1 r s2 (new & printed & Hc). eapply handle_result_consistent.
    exact Hc.
  - exact HI.
Qed.

Lemma handle_query_consistent idx claim sort_date rs0 st query st' :
  (exists new printed, store_consistent idx claim rs0 st new printed) ->
  handle_query W google_search cfg idx claim sort_date st query = Ret st' ->
  exists new printed, store_consistent idx claim rs0 st' new printed.
Proof.
  intros HI. unfold handle_query.
  apply (for_each_invariant
           (fun s => exists new printed,
                       store_consistent idx claim rs0 s new printed));
    [|exact HI].
  intros s1 pg s2. apply handle_page_consistent.
Qed.

Lemma search_claim_consistent idx ex rs st :
  search_claim W google_search word_tokenize pos_tag cfg idx ex rs = Ret st ->
  exists new printed, store_consistent idx (claim ex) rs st new printed.
Proof.
  unfold search_claim.
  destruct (DateNormalizer.sort_date (check_date ex)) as [sd|e];
    simpl; [|discriminate].
  apply (for_each_invariant
           (fun s => exists new printed,
                       store_consistent idx (claim ex) rs s new printed)).
  - intros s1 qy s2. apply handle_query_consistent.
  - exists [], []. unfold Orchestrator.store_consistent.
    cbn [futures out visited store_counter run].
    rewrite !app_nil_r. repeat split; try constructor.
    + intros Hs. now rewrite lookup_empty in Hs.
    + intros (t & Ht & _). now apply elem_of_nil in Ht.
Qed.

Lemma NoDup_fmap_inj_on {A B : Type} (f : A -> B) (l : list A) (x y : A) :
  NoDup (f <$> l) -> x ∈ l -> y ∈ l -> f x = f y -> x = y.
Proof.
  induction l as [|a l IH]; intros Hnd Hx Hy E.
  - now apply elem_of_nil in Hx.
  - rewrite fmap_cons in Hnd. apply NoDup_cons in Hnd as [Hni Hnd].
    apply elem_of_cons in Hx as [->|Hx]; apply elem_of_cons in Hy as [->|Hy].
    + reflexivity.
    + exfalso. apply Hni. rewrite E. now apply list_elem_of_fmap_2.
    + exfalso. apply Hni. rewrite <- E. now apply list_elem_of_fmap_2.
    + now apply IH.
Qed.

(** C6: the search of one claim, started from any state [rs] of the run,
    ends with a store [visited] such that every line printed for the claim
    carries the path that [visited] holds for its link, two links with the
    same path are the same link, the tasks submitted for the claim have
    pairwise different URLs and are exactly the entries of [visited], and
    their paths are numbered from 1 on, whatever the earlier claims did.
    Inside the loop, a link that is not in [visited] gets the next number
    and one submitted task; a link that is in it submits nothing and
    leaves the store as it is. *)
Theorem store_path_per_url idx ex rs st :
  search_claim W google_search word_tokenize pos_tag cfg idx ex rs = Ret st ->
  (exists new printed,
      futures W (run W st) = futures W rs ++ new
      /\ out W (run W st) = out W rs ++ printed
      /\ Forall (fun line =>
                   exists url page_num q ty p,
                     line = result_line idx (claim ex) url page_num q ty p
                     /\ visited W st !! url = Some p) printed
      /\ (forall u1 u2 p, visited W st !! u1 = Some p ->
                          visited W st !! u2 = Some p -> u1 = u2)
      /\ NoDup (t_url <$> new)
      /\ (forall u p, visited W st !! u = Some p
                      <-> exists t, t ∈ new /\ t_url t = u /\ t_path t = p)
      /\ t_path <$> new = store_file_path cfg idx <$> seq 1 (length new))
  /\ (forall s r page_num q ty,
        accepts (misinfo_list cfg) (default EmptyString (link r)) = Ret true ->
        exists s',
          handle_result idx (claim ex) page_num q ty s r = Ret s'
          /\ match visited W s !! default EmptyString (link r) with
             | Some p =>
                 visited W s' = visited W s
                 /\ store_counter W s' = store_counter W s
                 /\ futures W (run W s') = futures W (run W s)
             | None =>
                 let p := store_file_path cfg idx (S (store_counter W s)) in
                 visited W s' = <[default EmptyString (link r) := p]> (visited W s)
                 /\ store_counter W s' = S (store_counter W s)
                 /\ futures W (run W s')
                    = futures W (run W s) ++
                      [FetchTask (default EmptyString (link r)) p idx
                         (claim ex) page_num q ty]
             end).
Proof.
  intros Hs. split.
  - destruct (search_claim_consistent _ _ _ _ Hs)
      as (new & printed & Hf & Ho & Hp & Hnd & Hv & Hl).
    assert (Hlen : length new = store_counter W st).
    { apply (f_equal length) in Hp. now rewrite !length_fmap, length_seq in Hp. }
    exists new, printed. repeat split; try assumption; try apply Hv.
    + intros u1 u2 p H1 H2.
      apply Hv in H1 as (t1 & Ht1 & <- & Hp1).
      apply Hv in H2 as (t2 & Ht2 & <- & Hp2).
      f_equal. apply (NoDup_fmap_inj_on t_path new); try assumption.
      * rewrite Hp. apply NoDup_fmap_2; [|apply NoDup_seq].
        intros a b. apply store_file_path_inj.
      * congruence.
    + now rewrite Hlen.
  - intros s r page_num q ty Ha.
    destruct (visited W s !! default EmptyString (link r)) as [p|] eqn:Hu.
    + eexists. split; [apply handle_result_seen; eassumption|]. easy.
    + eexists. split; [apply handle_result_new; eassumption|]. easy.
Qed.
End Run.

Lemma store_path_per_url_witness :
  exists st,
    search_claim unit Demo.demo_search Demo.demo_tokenize Demo.demo_tag
      Demo.demo_cfg 7 Demo.demo_example Demo.demo_start = Ret st
    /\ t_url <$> futures unit (run unit st)
       = ["http://a.example/1"; "http://b.example/2"]
    /\ t_path <$> futures unit (run unit st)
       = ["store/search_result_7_1.store"; "store/search_result_7_2.store"]
    /\ length (out unit (run unit st)) = 7
    /\ forall u1 u2 p, visited unit st !! u1 = Some p ->
                       visited unit st !! u2 = Some p -> u1 = u2.
Proof.
  assert (exists st,
            search_claim unit Demo.demo_search Demo.demo_tokenize Demo.demo_tag
              Demo.demo_cfg 7 Demo.demo_example Demo.demo_start = Ret st
            /\ t_url <$> futures unit (run unit st)
               = ["http://a.example/1"; "http://b.example/2"]
            /\ t_path <$> futures unit (run unit st)
               = ["store/search_result_7_1.store"; "store/search_result_7_2.store"]
            /\ length (out unit (run unit st)) = 7) as (st & E & Hu & Hp & Hl).
  { eexists. split; [vm_compute; reflexivity|]. repeat split. }
  exists st. repeat split; try assumption.
  destruct (store_path_per_url unit Demo.demo_search Demo.demo_tokenize
              Demo.demo_tag Demo.demo_cfg 7 Demo.demo_example Demo.demo_start
              st E) as ((new & printed & _ & _ & _ & Hinj & _) & _).
  exact Hinj.
Defined.

End StoreFacts.

(** * Further properties *)

(** ** Dates made of digits *)

Module DateMore.
Import PyStr PyStrFacts DateNormalizer Spec Shapes.

Lemma digit_not_space (c : ascii) :
  is_digit c = true ->
  isspace c = false /\ Ascii.eqb c "+"%char = false
  /\ Ascii.eqb c "-"%char = false /\ Ascii.eqb c "_"%char = false
  /\ int_space c = false.
Proof.
  destruct c as [[] [] [] [] [] [] [] []]; vm_compute; intros H;
    try discriminate; repeat split.
Qed.

Lemma all_digits_no_dash (s : string) :
  all_chars is_digit s = true -> has_char "-"%char s = false.
Proof.
  induction s as [|c s IH]; simpl; [easy|].
  intros H. apply andb_true_iff in H as [Hc Hs].
  destruct (digit_not_space c Hc) as (_ & _ & Hd & _ & _).
  now rewrite Hd, (IH Hs).
Qed.

(** [int] reads a string of two digits. *)
Lemma int_two_digits (a b : ascii) :
  is_digit a = true -> is_digit b = true ->
  exists v, int (String a (String b EmptyString)) = Ret v.
Proof.
  intros Ha Hb.
  destruct (digit_not_space a Ha) as (_ & Pa & Ma & _ & Sa).
  destruct (digit_not_space b Hb) as (_ & _ & _ & _ & Sb).
  unfold is_digit in Ha, Hb.
  destruct (digit_of a) as [da|] eqn:Da; [|discriminate].
  destruct (digit_of b) as [db|] eqn:Db; [|discriminate].
  exists (10 * (10 * 0 + da) + db)%Z.
  unfold int. cbn [int_lstrip]. rewrite Sa. cbn [int_rstrip]. rewrite Sb.
  assert (E : forall r : option Z,
             match String a (String b EmptyString) with
             | String "+"%char r' => digits_value LitStart 0 r'
             | String "-"%char r' => option_map Z.opp (digits_value LitStart 0 r')
             | _ => r
             end = r).
  { intros r. apply Ascii.eqb_neq in Pa, Ma.
    destruct a as [[] [] [] [] [] [] [] []]; try reflexivity; congruence. }
  rewrite E. cbn [digits_value]. now rewrite Da, Db.
Qed.

Lemma pad2_length (f : string) :
  1 <= String.length f <= 2 -> String.length (pad2 f) = 2.
Proof.
  intros H. unfold pad2.
  destruct (Nat.eqb_spec (String.length f) 1) as [E|E].
  - rewrite length_append. simpl. lia.
  - lia.
Qed.

Lemma expand_year_digits (y : string) :
  all_chars is_digit y = true ->
  exists y', expand_year y = Ret y'
             /\ (String.length y = 1 \/ String.length y = 2
                 \/ String.length y = 4 -> String.length y' = 4).
Proof.
  intros Hy. unfold expand_year.
  destruct y as [|a [|b [|c y]]].
  - eexists. split; [reflexivity|]. simpl. lia.
  - eexists. split; [reflexivity|]. intros _. reflexivity.
  - simpl in Hy. apply andb_true_iff in Hy as [Ha Hb].
    apply andb_true_iff in Hb as [Hb _].
    destruct (int_two_digits a b Ha Hb) as [v Hv].
    cbn [String.length Nat.eqb]. rewrite Hv. cbn [bind].
    eexists. split; [reflexivity|]. intros _.
    rewrite length_append. now destruct (v <=? 30)%Z.
  - eexists. split; [reflexivity|]. simpl. lia.
Qed.

(** X1: a date whose year is written with digits never raises, whatever
    its month and day are; with a year of one, two or four digits and a
    month and a day of one or two characters, the result has eight
    characters. *)
Theorem digit_year_gives_eight_chars (y m d : string) :
  all_chars is_digit y = true ->
  has_char "-"%char m = false -> has_char "-"%char d = false ->
  exists s,
    normalize_date (ymd y m d) = Ret s
    /\ (String.length y = 1 \/ String.length y = 2 \/ String.length y = 4 ->
        1 <= String.length m <= 2 -> 1 <= String.length d <= 2 ->
        String.length s = 8).
Proof.
  intros Hy Hm Hd.
  rewrite (DateFacts.sort_date_fields _ _ _ _
             (DateFacts.split_ymd y m d (all_digits_no_dash y Hy) Hm Hd)).
  destruct (expand_year_digits y Hy) as (y' & -> & Hlen).
  cbn [bind]. eexists. split; [reflexivity|].
  intros Ly Lm Ld. rewrite !length_append, (Hlen Ly).
  rewrite (pad2_length m Lm), (pad2_length d Ld). reflexivity.
Qed.

Lemma digit_year_gives_eight_chars_witness :
  exists s, normalize_date (ymd "07" "11" "9") = Ret s /\ String.length s = 8.
Proof.
  destruct (digit_year_gives_eight_chars "07" "11" "9" eq_refl eq_refl eq_refl)
    as (s & Hs & Hl).
  exists s. split; [exact Hs|]. apply Hl; vm_compute; lia.
Defined.

End DateMore.

(** ** Domains of links *)

Module DomainFacts.
Import PyStr PyStrFacts UrlParse ResultFilter Shapes.

Lemma contains_char (c : ascii) (s : string) :
  contains s (String c EmptyString) = has_char c s.
Proof.
  induction s as [|a s IH]; [reflexivity|].
  cbn [contains startswith has_char]. rewrite IH.
  replace (startswith s EmptyString) with true by now destruct s.
  now rewrite andb_true_r, Ascii.eqb_sym.
Qed.

Lemma remove_unsafe_app (a b : string) :
  remove_unsafe (a +:+ b) = remove_unsafe a +:+ remove_unsafe b.
Proof.
  induction a as [|c a IH]; [reflexivity|].
  rewrite append_cons. cbn [remove_unsafe]. rewrite IH.
  now destruct (_ || _).
Qed.

Lemma host_char_facts (c : ascii) :
  host_char c = true ->
  ((nat_of_ascii c =? 9) || (nat_of_ascii c =? 10) || (nat_of_ascii c =? 13)
   = false)
  /\ (Ascii.eqb c "/"%char || Ascii.eqb c "?"%char || Ascii.eqb c "#"%char
      = false)
  /\ Ascii.eqb c "["%char = false /\ Ascii.eqb c "]"%char = false.
Proof.
  destruct c as [[] [] [] [] [] [] [] []]; vm_compute; intros H;
    try discriminate; repeat split.
Qed.

Lemma remove_unsafe_host (host : string) :
  all_chars host_char host = true -> remove_unsafe host = host.
Proof.
  induction host as [|c host IH]; [reflexivity|].
  cbn [all_chars remove_unsafe]. intros H.
  apply andb_true_iff in H as [Hc Hh].
  destruct (host_char_facts c Hc) as (-> & _). now rewrite (IH Hh).
Qed.

Lemma remove_unsafe_after_host (rest : string) :
  after_host rest = true -> after_host (remove_unsafe rest) = true.
Proof.
  destruct rest as [|c rest]; [reflexivity|].
  cbn [after_host remove_unsafe]. intros H.
  destruct c as [[] [] [] [] [] [] [] []]; try discriminate; exact H.
Qed.

Lemma until_delim_host (host rest : string) :
  all_chars host_char host = true -> after_host rest = true ->
  until_delim (host +:+ rest) = host.
Proof.
  intros Hh Hr. induction host as [|c host IH].
  - rewrite append_empty_l. destruct rest as [|c rest]; [reflexivity|].
    cbn [after_host] in Hr. cbn [until_delim]. now rewrite Hr.
  - cbn [all_chars] in Hh. apply andb_true_iff in Hh as [Hc Hh].
    destruct (host_char_facts c Hc) as (_ & Hd & _).
    rewrite append_cons. cbn [until_delim]. rewrite Hd. now rewrite (IH Hh).
Qed.

Lemma host_no_bracket (host : string) (c : ascii) :
  c = "["%char \/ c = "]"%char ->
  all_chars host_char host = true -> has_char c host = false.
Proof.
  intros Hc. induction host as [|a host IH]; [reflexivity|].
  cbn [all_chars has_char]. intros H. apply andb_true_iff in H as [Ha Hh].
  destruct (host_char_facts a Ha) as (_ & _ & Hl & Hr).
  rewrite (IH Hh), orb_false_r. now destruct Hc as [-> | ->].
Qed.

(** The netloc of an http or https URL is the text between the scheme and
    the first [/], [?] or [#]. *)
Lemma netloc_http (secure : bool) (host rest : string) :
  all_chars host_char host = true -> after_host rest = true ->
  netloc ((if secure then "https://" else "http://") +:+ host +:+ rest)
  = Ret host.
Proof.
  intros Hh Hr. unfold netloc, cleaned.
  assert (E : strip_scheme
                (remove_unsafe
                   (lstrip_c0 ((if secure then "https://" else "http://")
                               +:+ host +:+ rest)))
              = "//" +:+ host +:+ remove_unsafe rest).
  { assert (L : forall x, lstrip_c0 (String "h" x) = String "h" x)
      by reflexivity.
    assert (S1 : forall x, strip_scheme ("https://" +:+ x) = "//" +:+ x)
      by reflexivity.
    assert (S2 : forall x, strip_scheme ("http://" +:+ x) = "//" +:+ x)
      by reflexivity.
    destruct secure.
    - change ("https://" +:+ host +:+ rest)
        with (String "h" ("ttps://" +:+ host +:+ rest)).
      rewrite L.
      change (String "h" ("ttps://" +:+ host +:+ rest))
        with ("https://" +:+ (host +:+ rest)).
      rewrite !remove_unsafe_app, (remove_unsafe_host host Hh).
      change (remove_unsafe "https://") with "https://". now rewrite S1.
    - change ("http://" +:+ host +:+ rest)
        with (String "h" ("ttp://" +:+ host +:+ rest)).
      rewrite L.
      change (String "h" ("ttp://" +:+ host +:+ rest))
        with ("http://" +:+ (host +:+ rest)).
      rewrite !remove_unsafe_app, (remove_unsafe_host host Hh).
      change (remove_unsafe "http://") with "http://". now rewrite S2. }
  rewrite E.
  change ("//" +:+ host +:+ remove_unsafe rest)
    with (String "/" (String "/" (host +:+ remove_unsafe rest))).
  cbn [startswith Ascii.eqb Bool.eqb andb drop].
  replace (startswith (host +:+ remove_unsafe rest) EmptyString) with true
    by now destruct (host +:+ remove_unsafe rest).
  rewrite (until_delim_host host _ Hh (remove_unsafe_after_host rest Hr)).
  rewrite !contains_char.
  rewrite (host_no_bracket host "["%char (or_introl eq_refl) Hh).
  rewrite (host_no_bracket host "]"%char (or_intror eq_refl) Hh).
  reflexivity.
Qed.

Lemma scheme_is_found (secure : bool) (x : string) :
  contains ((if secure then "https://" else "http://") +:+ x) "://" = true
  /\ String.eqb ((if secure then "https://" else "http://") +:+ x) EmptyString
     = false.
Proof. destruct secure, x; split; reflexivity. Qed.

Lemma domain_of_http_link (secure www : bool) (host rest : string) :
  all_chars host_char host = true -> after_host rest = true ->
  startswith host "www." = false ->
  get_domain_name
    ((if secure then "https://" else "http://")
     +:+ (if www then "www." else EmptyString) +:+ host +:+ rest)
  = Ret host.
Proof.
  intros Hh Hr Hw. unfold get_domain_name.
  destruct (scheme_is_found secure
              ((if www then "www." else EmptyString) +:+ host +:+ rest))
    as [-> _].
  destruct www.
  - rewrite <- (append_assoc "www." host rest).
    rewrite (netloc_http secure ("www." +:+ host) rest); [|exact Hh|exact Hr].
    cbn [bind]. now destruct host.
  - rewrite append_empty_l, (netloc_http secure host rest Hh Hr).
    cbn [bind]. now rewrite Hw.
Qed.

(** X2: the domain of an http or https link is its host name, read up to
    the first [/], [?] or [#], with one leading "www." removed; a link
    without "://" is read as if it began with "http://". *)
Theorem domain_is_host_without_www (secure www : bool) (host rest : string) :
  all_chars host_char host = true -> after_host rest = true ->
  startswith host "www." = false ->
  get_domain_name
    ((if secure then "https://" else "http://")
     +:+ (if www then "www." else EmptyString) +:+ host +:+ rest)
  = Ret host
  /\ (contains ((if www then "www." else EmptyString) +:+ host +:+ rest) "://"
      = false ->
      get_domain_name ((if www then "www." else EmptyString) +:+ host +:+ rest)
      = Ret host).
Proof.
  intros Hh Hr Hw. split; [now apply domain_of_http_link|].
  intros Hc.
  pose proof (domain_of_http_link false www host rest Hh Hr Hw) as E.
  unfold get_domain_name in *. rewrite Hc.
  now destruct (scheme_is_found false
                  ((if www then "www." else EmptyString) +:+ host +:+ rest))
    as [-> _] in E.
Qed.

Lemma domain_is_host_without_www_witness :
  get_domain_name "https://www.example.org/a/b?c=d" = Ret "example.org"
  /\ get_domain_name "www.example.org/a" = Ret "example.org".
Proof.
  split.
  - apply (domain_is_host_without_www true true "example.org" "/a/b?c=d");
      reflexivity.
  - apply (domain_is_host_without_www false true "example.org" "/a");
      reflexivity.
Defined.

(** X3: a link on one of the listed domains is rejected whatever follows
    the host name, over http or https, with or without "www.". *)
Theorem blacklisted_domain_rejected (misinfo : list string) (secure www : bool)
    (domain rest : string) :
  In domain blacklist_domains -> after_host rest = true ->
  accepts misinfo
    ((if secure then "https://" else "http://")
     +:+ (if www then "www." else EmptyString) +:+ domain +:+ rest)
  = Ret false.
Proof.
  intros Hin Hr. unfold accepts.
  destruct (scheme_is_found secure
              ((if www then "www." else EmptyString) +:+ domain +:+ rest))
    as [_ ->].
  assert (Hd : all_chars host_char domain = true
               /\ startswith domain "www." = false
               /\ in_list domain blacklist_domains = true).
  { unfold blacklist_domains in Hin. simpl in Hin.
    repeat (destruct Hin as [<- | Hin]; [repeat split|]). contradiction. }
  destruct Hd as (Hh & Hw & Hb).
  rewrite (domain_of_http_link secure www domain rest Hh Hr Hw).
  cbn [bind]. now rewrite Hb.
Qed.

Lemma blacklisted_domain_rejected_witness :
  accepts [] "http://www.huggingface.co/models?sort=new" = Ret false.
Proof.
  apply (blacklisted_domain_rejected [] false true "huggingface.co"
           "/models?sort=new").
  - simpl. tauto.
  - reflexivity.
Defined.

End DomainFacts.

(** ** The answer of a retried search *)

Module SearchMore.
Import PyStr SearchDispatcher Spec Shapes.

Section Provider.
Variable W : Type.
Variable google_search : search_call -> W -> res (list search_result) * W.

Lemma attempts_first_answer (n k : nat) (call : search_call) (w wk w' : W)
    (items : list search_result) :
  k < n ->
  after_failures W google_search k call w = Some wk ->
  google_search call wk = (Ret items, w') ->
  attempts W google_search n call w
  = (items, w', failed_rounds call k ++ [Query call]).
Proof.
  revert n w. induction k as [|k IH]; intros n w Hk Hf Hs.
  - destruct n as [|n]; [lia|]. simpl in Hf. injection Hf as ->.
    simpl. now rewrite Hs.
  - destruct n as [|n]; [lia|]. simpl in Hf. simpl.
    destruct (google_search call w) as [[its|e] w1]; [discriminate|].
    rewrite (IH n w1); [reflexivity | lia | exact Hf | exact Hs].
Qed.

Lemma attempts_exhausted (n : nat) (call : search_call) (w wn : W) :
  after_failures W google_search n call w = Some wn ->
  attempts W google_search n call w = ([], wn, failed_rounds call n).
Proof.
  revert w. induction n as [|n IH]; intros w Hf.
  - simpl in Hf. now injection Hf as ->.
  - simpl in Hf. simpl.
    destruct (google_search call w) as [[its|e] w1]; [discriminate|].
    now rewrite (IH w1 Hf).
Qed.

(** X4: when the provider fails [k] times, with [k] below three, and then
    answers, the search returns that answer and the provider's state after
    it, and stops calling: [k] failed rounds and one more call.  After
    three failures it returns the empty list with the state the third
    failure left. *)
Theorem search_returns_first_answer
    (api_key cse_id sort_date search_string : string) (page k : nat)
    (w wk : W) :
  let call := SearchCall search_string api_key cse_id 10 (10 * page)
                ("date:r:19000101:" +:+ sort_date) "US" in
  after_failures W google_search k call w = Some wk ->
  (k < 3 -> forall items w',
     google_search call wk = (Ret items, w') ->
     get_google_search_results W google_search api_key cse_id sort_date
       search_string page w
     = (items, w', failed_rounds call k ++ [Query call]))
  /\ (k = 3 ->
      get_google_search_results W google_search api_key cse_id sort_date
        search_string page w
      = ([], wk, failed_rounds call 3)).
Proof.
  intros call Hf. unfold get_google_search_results.
  change (0 + 10 * page) with (10 * page). fold call. split.
  - intros Hk items w' Hs. now apply (attempts_first_answer 3 k call w wk).
  - intros ->. now apply attempts_exhausted.
Qed.
End Provider.

Lemma search_returns_first_answer_witness :
  fst (get_google_search_results nat Scenarios.flaky_search "key" "cx"
         "20220101" "some claim" 0 0)
  = ([SearchResult (Some "http://a.example/1")], 3).
Proof.
  rewrite (proj1 (search_returns_first_answer nat Scenarios.flaky_search
                    "key" "cx" "20220101" "some claim" 0 2 0 2 eq_refl)
             ltac:(lia) [SearchResult (Some "http://a.example/1")] 3 eq_refl).
  reflexivity.
Defined.

End SearchMore.

(** ** QueryGenerator *)

Module QueryFacts.
Import PyStr PyStrFacts QueryGenerator Shapes.

Lemma join_app (sep : string) (xs ys : list string) :
  xs <> [] -> ys <> [] ->
  join sep (xs ++ ys) = join sep xs +:+ sep +:+ join sep ys.
Proof.
  intros Hx Hy. induction xs as [|x [|x' xs] IH]; [contradiction| |].
  - destruct ys; [contradiction|]. reflexivity.
  - change (join sep ((x :: x' :: xs) ++ ys))
      with (x +:+ sep +:+ join sep ((x' :: xs) ++ ys)).
    rewrite IH by discriminate.
    change (join sep (x :: x' :: xs)) with (x +:+ sep +:+ join sep (x' :: xs)).
    now rewrite !append_assoc.
Qed.

Lemma filtered_tokens_sublist (f : string * (string * string) -> bool)
    (parts : list string) (tags : list (string * string)) :
  sublist (map fst (List.filter f (combine parts tags))) parts.
Proof.
  revert tags. induction parts as [|p parts IH]; intros tags.
  - constructor.
  - destruct tags as [|t tags]; simpl.
    + apply sublist_nil_l.
    + destruct (f (p, t)); simpl.
      * apply sublist_skip, IH.
      * apply sublist_cons, IH.
Qed.

Section Tokenizer.
Variable word_tokenize : string -> list string.
Variable pos_tag : list string -> list (string * string).

(** X5: the query built with a speaker is the speaker's words, joined by
    single spaces, then a space, then the query built without speaker; a
    speaker without any word gives the query without speaker. *)
Theorem speaker_words_come_first (text author : string) :
  (split_ws author <> [] -> kept_tokens word_tokenize pos_tag text <> [] ->
   string_to_search_query word_tokenize pos_tag text (Some author)
   = join " " (split_ws author) +:+ " "
     +:+ string_to_search_query word_tokenize pos_tag text None)
  /\ (split_ws author = [] ->
      string_to_search_query word_tokenize pos_tag text (Some author)
      = string_to_search_query word_tokenize pos_tag text None).
Proof.
  unfold string_to_search_query. fold (kept_tokens word_tokenize pos_tag text).
  split.
  - intros Ha Hk. destruct author as [|c author]; [contradiction|].
    cbn [truthy_author String.eqb negb]. now apply join_app.
  - intros Ha. destruct (truthy_author author); now rewrite ?Ha.
Qed.

(** X6: the tokens kept for a query are tokens of the stripped text, in
    their order: the filter drops tokens and adds or moves none. *)
Theorem kept_tokens_keep_order (text : string) :
  sublist (kept_tokens word_tokenize pos_tag text) (word_tokenize (strip text))
  /\ string_to_search_query word_tokenize pos_tag text None
     = join " " (kept_tokens word_tokenize pos_tag text).
Proof.
  split; [apply filtered_tokens_sublist | reflexivity].
Qed.
End Tokenizer.

Lemma speaker_words_come_first_witness :
  string_to_search_query Demo.demo_tokenize Demo.demo_tag
    "The cat sat" (Some "  John   Smith ")
  = "John Smith The cat sat".
Proof.
  rewrite (proj1 (speaker_words_come_first Demo.demo_tokenize Demo.demo_tag
                    "The cat sat" "  John   Smith "));
    [reflexivity | discriminate | discriminate].
Defined.

End QueryFacts.

(** ** The loop over the examples *)

Module LoopFacts.
Import PyStr PyStrFacts SearchDispatcher Orchestrator ResumeLog.



Section Run.
Variable W : Type.
Variable google_search : search_call -> W -> res (list search_result) * W.
Variable word_tokenize : string -> list string.
Variable pos_tag : list string -> list (string * string).
Variable cfg : config.


Lemma replayed_items (existing : gmap string group)
    (items : list (Z * example)) (rs : run_state W) :
  (forall item, In item items -> is_Some (existing !! claim (snd item))) ->
  for_each (process_claim W google_search word_tokenize pos_tag cfg existing)
    items rs
  = Ret (RunState W
           (out W rs ++
            concat (map (fun item =>
                           default [] (replay existing (claim (snd item))))
                      items))
           (futures W rs) (world W rs) (events W rs)).
Proof.
  revert rs. induction items as [|item items IH]; intros rs Hall.
  - simpl. rewrite app_nil_r. now destruct rs.
  - simpl. unfold process_claim at 1.
    destruct (Hall item (or_introl eq_refl)) as [g Hg].
    unfold replay at 1. rewrite Hg. cbn [fmap option_fmap option_map bind].
    rewrite IH by (intros it Hit; apply Hall; now right).
    cbn [out futures world events]. unfold replay at 2. rewrite Hg.
    cbn [fmap option_fmap option_map default]. now rewrite <- app_assoc.
Qed.

(** X8: when the claim of every visited example is a key of [existing],
    the run calls the provider for none of them and submits no task: the
    output is the header followed by the stored lines of the examples, in
    the order of the examples. *)
Theorem fully_resumed_run_searches_nothing (resume : option (list string))
    (examples : list example) (w : W) (existing : gmap string group) :
  load_existing resume = Ret existing ->
  (forall item, In item (selected cfg examples) ->
                is_Some (existing !! claim (snd item))) ->
  main_loop W google_search word_tokenize pos_tag cfg resume examples w
  = Ret (RunState W
           (header_line ::
            concat (map (fun item =>
                           default [] (replay existing (claim (snd item))))
                      (selected cfg examples)))
           [] w []).
Proof.
  intros Hex Hall. unfold main_loop. rewrite Hex. cbn [bind].
  now rewrite (replayed_items existing _ _ Hall).
Qed.
End Run.


Lemma fully_resumed_run_searches_nothing_witness :
  main_loop unit Demo.demo_search Demo.demo_tokenize Demo.demo_tag
    Demo.demo_cfg (Some Scenarios.resume_file) [Demo.demo_example] tt
  = Ret (RunState unit
           [header_line;
            result_line 0 "A claim" "http://a.example/1" 0 "A claim"
              "claim-noformat" "store/search_result_0_1.store"]
           [] tt []).
Proof.
  rewrite (fully_resumed_run_searches_nothing unit Demo.demo_search
             Demo.demo_tokenize Demo.demo_tag Demo.demo_cfg
             (Some Scenarios.resume_file) [Demo.demo_example] tt
             (<["A claim" :=
                  Group (Some "A claim")
                    [result_line 0 "A claim" "http://a.example/1" 0 "A claim"
                       "claim-noformat" "store/search_result_0_1.store"]]> ∅)).
  - vm_compute. reflexivity.
  - vm_compute. reflexivity.
  - intros item Hin.
    change (selected Demo.demo_cfg [Demo.demo_example])
      with [(0%Z, Demo.demo_example)] in Hin.
    destruct Hin as [<- | []]. eexists. vm_compute. reflexivity.
Defined.

End LoopFacts.

(** ** The provider calls of a claim *)

Module QuotaFacts.
Import PyStr PyStrFacts SearchDispatcher Orchestrator Spec RunShapes.

Lemma for_each_events {A S : Type} (ev : S -> list event) (P : event -> Prop)
    (lo hi : nat) (body : S -> A -> res S) (items : list A) (s s' : S) :
  (forall s1 x s2, In x items -> body s1 x = Ret s2 ->
     exists evs, ev s2 = ev s1 ++ evs
                 /\ lo <= searches evs <= hi /\ Forall P evs) ->
  for_each body items s = Ret s' ->
  exists evs, ev s' = ev s ++ evs
              /\ lo * length items <= searches evs <= hi * length items
              /\ Forall P evs.
Proof.
  revert s. induction items as [|x items IH]; intros s Hstep Hrun.
  - simpl in Hrun. injection Hrun as <-. exists [].
    rewrite app_nil_r. split; [reflexivity|].
    split; [change (searches []) with 0; simpl; lia | constructor].
  - simpl in Hrun. destruct (body s x) as [s1|e] eqn:E; [|discriminate].
    simpl in Hrun.
    destruct (Hstep s x s1 (or_introl eq_refl) E) as (e1 & H1 & B1 & F1).
    destruct (IH s1 (fun a b c Hin => Hstep a b c (or_intror Hin)) Hrun)
      as (e2 & H2 & B2 & F2).
    exists (e1 ++ e2). rewrite H2, H1, <- app_assoc.
    split; [reflexivity|]. split.
    + rewrite SearchFacts.searches_app. simpl. lia.
    + now apply Forall_app.
Qed.

Section Run.
Variable W : Type.
Variable google_search : search_call -> W -> res (list search_result) * W.
Variable word_tokenize : string -> list string.
Variable pos_tag : list string -> list (string * string).
Variable cfg : config.

Lemma handle_result_keeps_events idx claim page_num q ty st r st' :
  handle_result W cfg idx claim page_num q ty st r = Ret st' ->
  events W (run W st') = events W (run W st)
  /\ world W (run W st') = world W (run W st).
Proof.
  intros H.
  destruct (ResultFilter.accepts (misinfo_list cfg)
              (default EmptyString (link r))) as [[|]|e] eqn:Ha.
  - destruct (visited W st !! default EmptyString (link r)) as [p|] eqn:Hu.
    + rewrite (StoreFacts.handle_result_seen W cfg _ _ _ _ _ _ _ p Ha Hu) in H.
      now injection H as <-.
    + rewrite (StoreFacts.handle_result_new W cfg _ _ _ _ _ _ _ Ha Hu) in H.
      now injection H as <-.
  - rewrite (StoreFacts.handle_result_rejected W cfg _ _ _ _ _ _ _ Ha) in H.
    now injection H as <-.
  - unfold handle_result in H. rewrite Ha in H. discriminate.
Qed.

Lemma search_events (sort_date : string) (terms : list string)
    (term : string) (page_num : nat) (w : W) :
  In term terms -> page_num < n_pages cfg ->
  let evs := snd (get_google_search_results W google_search (api_key cfg)
                    (search_engine_id cfg) sort_date term page_num w) in
  1 <= searches evs <= 3
  /\ Forall (well_formed_event cfg sort_date terms) evs.
Proof.
  intros Hin Hpg evs. subst evs. unfold get_google_search_results.
  set (call := SearchCall term (api_key cfg) (search_engine_id cfg) 10
                 (0 + 10 * page_num) ("date:r:19000101:" +:+ sort_date) "US").
  destruct (SearchFacts.attempts_shape W google_search 3 call w)
    as (k & Hk & -> & _).
  assert (Hq : well_formed_event cfg sort_date terms (Query call)).
  { simpl. repeat split; try assumption. now exists page_num. }
  split.
  - rewrite SearchFacts.searches_app, SearchFacts.searches_failed_rounds.
    destruct (Nat.ltb_spec k 3); cbn; lia.
  - apply Forall_app. split.
    + clear Hk. induction k as [|k IH]; [constructor|].
      unfold failed_rounds in *. simpl.
      constructor; [exact Hq|]. constructor; [reflexivity | exact IH].
    + destruct (k <? 3); constructor; [exact Hq | constructor].
Qed.

Lemma handle_page_events idx claim sort_date terms query st page_num st' :
  In (fst query) terms -> page_num < n_pages cfg ->
  handle_page W google_search cfg idx claim sort_date query st page_num
  = Ret st' ->
  exists evs, events W (run W st') = events W (run W st) ++ evs
              /\ 1 <= searches evs <= 3
              /\ Forall (well_formed_event cfg sort_date terms) evs.
Proof.
  intros Hin Hpg. unfold handle_page.
  pose proof (search_events sort_date terms (fst query) page_num
                (world W (run W st)) Hin Hpg) as [Hb Hf].
  destruct (get_google_search_results _ _ _ _ _ _ _ _) as [[results w'] evs].
  simpl in Hb, Hf. intros Hrun.
  exists evs. split; [|easy].
  eapply (StoreFacts.for_each_invariant
            (fun s => events W (run W s) = events W (run W st) ++ evs));
    [ | | exact Hrun].
  - intros s1 x s2 H1 Hx.
    destruct (handle_result_keeps_events _ _ _ _ _ _ _ _ Hx) as [-> _].
    exact H1.
  - reflexivity.
Qed.

Lemma handle_query_events idx claim sort_date terms st query st' :
  In (fst query) terms ->
  handle_query W google_search cfg idx claim sort_date st query = Ret st' ->
  exists evs, events W (run W st') = events W (run W st) ++ evs
              /\ n_pages cfg <= searches evs <= 3 * n_pages cfg
              /\ Forall (well_formed_event cfg sort_date terms) evs.
Proof.
  intros Hin Hrun. unfold handle_query in Hrun.
  assert (Hstep : forall s1 pg s2,
             In pg (seq 0 (n_pages cfg)) ->
             handle_page W google_search cfg idx claim sort_date query s1 pg
             = Ret s2 ->
             exists evs, events W (run W s2) = events W (run W s1) ++ evs
                         /\ 1 <= searches evs <= 3
                         /\ Forall (well_formed_event cfg sort_date terms) evs).
  { intros s1 pg s2 Hpg Hx. apply in_seq in Hpg.
    apply (handle_page_events idx claim sort_date terms query s1 pg s2 Hin);
      [lia | exact Hx]. }
  destruct (for_each_events (fun s => events W (run W s))
              (well_formed_event cfg sort_date terms) 1 3 _ _ _ _ Hstep Hrun)
    as (evs & He & Hb & Hf).
  rewrite length_seq in Hb. exists evs. repeat split; try assumption; lia.
Qed.

(** X9: the search of a claim that returns calls the provider at least once
    and at most three times for every page of every query, and for nothing
    else: every call asks for ten results of one of the first [n_pages]
    pages of one of the claim's queries, up to the claim's date ceiling,
    and every pause lasts three seconds.  The claim has two queries, one
    more when it has a speaker, and one per question. *)
Theorem search_calls_are_bounded idx ex rs st :
  search_claim W google_search word_tokenize pos_tag cfg idx ex rs = Ret st ->
  let queries := queries_of word_tokenize pos_tag ex in
  exists sort_date evs,
    DateNormalizer.sort_date (check_date ex) = Ret sort_date
    /\ events W (run W st) = events W rs ++ evs
    /\ n_pages cfg * length queries <= searches evs
       <= 3 * n_pages cfg * length queries
    /\ Forall (well_formed_event cfg sort_date (map fst queries)) evs
    /\ length queries
       = (if String.eqb (strip (default EmptyString (speaker ex))) EmptyString
          then 0 else 1) + 2 + length (questions ex).
Proof.
  intros Hrun queries. unfold search_claim in Hrun.
  fold (queries_of word_tokenize pos_tag ex) in Hrun. fold queries in Hrun.
  destruct (DateNormalizer.sort_date (check_date ex)) as [sd|e];
    [|discriminate].
  cbn [bind] in Hrun.
  assert (Hstep : forall s1 qy s2,
             In qy queries ->
             handle_query W google_search cfg idx (claim ex) sd s1 qy = Ret s2 ->
             exists evs, events W (run W s2) = events W (run W s1) ++ evs
                         /\ n_pages cfg <= searches evs <= 3 * n_pages cfg
                         /\ Forall (well_formed_event cfg sd (map fst queries))
                              evs).
  { intros s1 qy s2 Hq Hx.
    apply (handle_query_events idx (claim ex) sd (map fst queries) s1 qy s2);
      [now apply in_map | exact Hx]. }
  destruct (for_each_events (fun s => events W (run W s))
              (well_formed_event cfg sd (map fst queries))
              (n_pages cfg) (3 * n_pages cfg) _ _ _ _ Hstep Hrun)
    as (evs & He & Hb & Hf).
  exists sd, evs. split; [reflexivity|]. split; [exact He|].
  split; [lia|]. split; [exact Hf|].
  subst queries. unfold queries_of, QueryGenerator.queries.
  rewrite !length_app, length_map.
  destruct (String.eqb _ _); simpl; lia.
Qed.
End Run.

Lemma search_calls_are_bounded_witness :
  exists st,
    search_claim unit Demo.demo_search Demo.demo_tokenize Demo.demo_tag
      Demo.demo_cfg 7 Demo.demo_example Demo.demo_start = Ret st
    /\ 2 <= searches (events unit (run unit st)) <= 6.
Proof.
  assert (exists st,
            search_claim unit Demo.demo_search Demo.demo_tokenize Demo.demo_tag
              Demo.demo_cfg 7 Demo.demo_example Demo.demo_start = Ret st)
    as [st E] by (eexists; vm_compute; reflexivity).
  exists st. split; [exact E|].
  destruct (search_calls_are_bounded unit Demo.demo_search Demo.demo_tokenize
              Demo.demo_tag Demo.demo_cfg 7 Demo.demo_example Demo.demo_start
              st E) as (sd & evs & _ & He & Hb & _ & Hl).
  rewrite He. change (events unit Demo.demo_start) with (@nil event).
  rewrite app_nil_l. rewrite Hl in Hb. vm_compute in Hb. exact Hb.
Defined.

End QuotaFacts.

(** ** Printed lines and submitted tasks *)

Module LineFacts.
Import PyStr PyStrFacts SearchDispatcher Orchestrator.

Section Run.
Variable W : Type.
Variable google_search : search_call -> W -> res (list search_result) * W.
Variable word_tokenize : string -> list string.
Variable pos_tag : list string -> list (string * string).
Variable cfg : config.

Lemma handle_result_has_lines idx claim rs0 page_num q ty st r st' :
  (exists new printed,
      futures W (run W st) = futures W rs0 ++ new
      /\ out W (run W st) = out W rs0 ++ printed
      /\ Forall (fun t => t_idx t = idx /\ t_claim t = claim
                          /\ In (result_line idx claim (t_url t) (t_page t)
                                   (t_search_string t) (t_search_type t)
                                   (t_path t)) printed) new) ->
  handle_result W cfg idx claim page_num q ty st r = Ret st' ->
  exists new printed,
    futures W (run W st') = futures W rs0 ++ new
    /\ out W (run W st') = out W rs0 ++ printed
    /\ Forall (fun t => t_idx t = idx /\ t_claim t = claim
                        /\ In (result_line idx claim (t_url t) (t_page t)
                                 (t_search_string t) (t_search_type t)
                                 (t_path t)) printed) new.
Proof.
  intros (new & printed & Hf & Ho & Ht) H.
  assert (Hmono : forall extra,
             Forall (fun t => t_idx t = idx /\ t_claim t = claim
                              /\ In (result_line idx claim (t_url t) (t_page t)
                                       (t_search_string t) (t_search_type t)
                                       (t_path t)) (printed ++ extra)) new).
  { intros extra. eapply Forall_impl; [exact Ht|]. simpl.
    intros t (? & ? & Hin). repeat split; try assumption.
    apply in_or_app. now left. }
  destruct (ResultFilter.accepts (misinfo_list cfg)
              (default EmptyString (link r))) as [[|]|e] eqn:Ha.
  - destruct (visited W st !! default EmptyString (link r)) as [p|] eqn:Hu.
    + rewrite (StoreFacts.handle_result_seen W cfg _ _ _ _ _ _ _ p Ha Hu) in H.
      injection H as <-. cbn [futures out run].
      eexists new, _. rewrite Ho, <- app_assoc.
      split; [exact Hf|]. split; [reflexivity | apply Hmono].
    + rewrite (StoreFacts.handle_result_new W cfg _ _ _ _ _ _ _ Ha Hu) in H.
      injection H as <-. cbn [futures out run].
      eexists (new ++ [_]), _. rewrite Hf, Ho, <- !app_assoc.
      split; [reflexivity|]. split; [reflexivity|].
      apply Forall_app. split; [apply Hmono|].
      constructor; [|constructor]. cbn.
      repeat split. apply in_or_app. right. now left.
  - rewrite (StoreFacts.handle_result_rejected W cfg _ _ _ _ _ _ _ Ha) in H.
    injection H as <-. now exists new, printed.
  - unfold handle_result in H. rewrite Ha in H. discriminate.
Qed.

(** X10: in the search of a claim, every printed line names the link and
    the store file of a task submitted for the claim, and every submitted
    task carries the claim's index and text and has its own line printed:
    the line of the page and query at which its link was first seen. *)
Theorem lines_and_tasks_agree idx ex rs st :
  search_claim W google_search word_tokenize pos_tag cfg idx ex rs = Ret st ->
  exists new printed,
    futures W (run W st) = futures W rs ++ new
    /\ out W (run W st) = out W rs ++ printed
    /\ Forall (fun line =>
                 exists t page_num q ty,
                   In t new
                   /\ line = result_line idx (claim ex) (t_url t) page_num q ty
                              (t_path t)) printed
    /\ Forall (fun t =>
                 t_idx t = idx /\ t_claim t = claim ex
                 /\ In (result_line idx (claim ex) (t_url t) (t_page t)
                          (t_search_string t) (t_search_type t) (t_path t))
                       printed) new.
Proof.
  intros Hrun.
  destruct (StoreFacts.search_claim_consistent W google_search word_tokenize
              pos_tag cfg idx ex rs st Hrun)
    as (new & printed & Hf & Ho & _ & _ & Hv & Hl).
  exists new, printed. split; [exact Hf|]. split; [exact Ho|]. split.
  - eapply Forall_impl; [exact Hl|]. simpl.
    intros line (url & pg & q & ty & p & -> & Hs).
    apply Hv in Hs as (t & Ht & <- & <-).
    exists t, pg, q, ty. split; [now apply list_elem_of_In | reflexivity].
  - unfold search_claim in Hrun.
    destruct (DateNormalizer.sort_date (check_date ex)) as [sd|e];
      [|discriminate].
    cbn [bind] in Hrun.
    pose (I := fun s : claim_state W =>
            exists new' printed',
              futures W (run W s) = futures W rs ++ new'
              /\ out W (run W s) = out W rs ++ printed'
              /\ Forall (fun t => t_idx t = idx /\ t_claim t = claim ex
                                  /\ In (result_line idx (claim ex) (t_url t)
                                           (t_page t) (t_search_string t)
                                           (t_search_type t) (t_path t))
                                        printed') new').
    assert (HI : I st).
    { apply (StoreFacts.for_each_invariant I _ _ _ _) with (3 := Hrun).
      - intros s1 qy s2 H1. unfold handle_query.
        apply (StoreFacts.for_each_invariant I); [|exact H1].
        intros s3 pg s4 H3. unfold handle_page.
        destruct (get_google_search_results _ _ _ _ _ _ _ _)
          as [[results w'] evs].
        apply (StoreFacts.for_each_invariant I); [|exact H3].
        intros s5 r s6. apply handle_result_has_lines.
      - exists [], []. cbn [futures out run]. rewrite !app_nil_r.
        repeat split. constructor. }
    destruct HI as (new' & printed' & Hf' & Ho' & Ht').
    rewrite Hf in Hf'. apply app_inv_head in Hf'. subst new'.
    rewrite Ho in Ho'. apply app_inv_head in Ho'. now subst printed'.
Qed.
End Run.

Lemma lines_and_tasks_agree_witness :
  exists st,
    search_claim unit Demo.demo_search Demo.demo_tokenize Demo.demo_tag
      Demo.demo_cfg 7 Demo.demo_example Demo.demo_start = Ret st
    /\ Forall (fun t => t_idx t = 7%Z /\ t_claim t = "A claim")
         (futures unit (run unit st)).
Proof.
  assert (exists st,
            search_claim unit Demo.demo_search Demo.demo_tokenize Demo.demo_tag
              Demo.demo_cfg 7 Demo.demo_example Demo.demo_start = Ret st)
    as [st E] by (eexists; vm_compute; reflexivity).
  exists st. split; [exact E|].
  destruct (lines_and_tasks_agree unit Demo.demo_search Demo.demo_tokenize
              Demo.demo_tag Demo.demo_cfg 7 Demo.demo_example Demo.demo_start
              st E) as (new & printed & Hf & _ & _ & Ht).
  rewrite Hf. change (futures unit Demo.demo_start) with (@nil fetch_task).
  rewrite app_nil_l. eapply Forall_impl; [exact Ht|]. simpl. tauto.
Defined.

End LineFacts.

(** ** Store files over a whole run *)

Module PathFacts.
Import PyStr PyStrFacts SearchDispatcher Orchestrator ResumeLog RunShapes.

Lemma uint_has_no_underscore (d : Decimal.uint) :
  has_char "_"%char (NilEmpty.string_of_uint d) = false.
Proof. induction d; simpl; try reflexivity; exact IHd. Qed.

Lemma str_of_Z_no_underscore (z : Z) :
  has_char "_"%char (str_of_Z z) = false.
Proof.
  unfold str_of_Z, NilZero.string_of_int, NilZero.string_of_uint.
  destruct (Z.to_int z) as [d|d]; destruct d; try reflexivity;
    try apply (uint_has_no_underscore (_ _));
    cbn [has_char Ascii.eqb Bool.eqb orb];
    try apply (uint_has_no_underscore (_ _)).
Qed.

Lemma str_of_Z_inj (a b : Z) : str_of_Z a = str_of_Z b -> a = b.
Proof.
  unfold str_of_Z. intros H.
  assert (Hn : forall z, Z.to_int z <> Decimal.Pos Decimal.Nil
                         /\ Z.to_int z <> Decimal.Neg Decimal.Nil).
  { intros [|p|p]; simpl; split; try discriminate;
      intros [= E]; now apply DecimalPos.Unsigned.to_uint_nonnil in E. }
  apply (f_equal NilZero.int_of_string) in H.
  rewrite !NilZero.isi in H by apply Hn.
  injection H as H. apply (f_equal Z.of_int) in H.
  now rewrite !DecimalZ.of_to in H.
Qed.

Lemma split_at_underscore (a a' b b' : string) :
  has_char "_"%char a = false -> has_char "_"%char a' = false ->
  a +:+ String "_"%char b = a' +:+ String "_"%char b' -> a = a' /\ b = b'.
Proof.
  revert a'. induction a as [|c a IH]; intros [|c' a'] Ha Ha' H.
  - rewrite !append_empty_l in H. now injection H as ->.
  - rewrite append_empty_l, append_cons in H. injection H as <- _.
    simpl in Ha'. discriminate.
  - rewrite append_empty_l, append_cons in H. injection H as -> _.
    simpl in Ha. discriminate.
  - rewrite !append_cons in H. injection H as -> H.
    simpl in Ha, Ha'. apply orb_false_iff in Ha as [_ Ha].
    apply orb_false_iff in Ha' as [_ Ha'].
    destruct (IH a' Ha Ha' H) as [-> ->]. easy.
Qed.

(** A store path names its claim and its counter. *)
Lemma store_file_path_names_both (cfg : config) (i j : Z) (a b : nat) :
  store_file_path cfg i a = store_file_path cfg j b -> i = j /\ a = b.
Proof.
  unfold store_file_path. intros H.
  apply StoreFacts.path_join_inj, append_inj_l in H.
  change ("_" +:+ str_of_nat a +:+ ".store")
    with (String "_"%char (str_of_nat a +:+ ".store")) in H.
  change ("_" +:+ str_of_nat b +:+ ".store")
    with (String "_"%char (str_of_nat b +:+ ".store")) in H.
  apply split_at_underscore in H as [Hi Hk];
    try apply str_of_Z_no_underscore.
  split; [now apply str_of_Z_inj|].
  apply append_inj_r in Hk. now apply StoreFacts.str_of_nat_inj.
Qed.

Lemma selected_ascending (cfg : config) (examples : list example) :
  ascending (start_idx cfg) (selected cfg examples).
Proof.
  unfold selected.
  generalize (py_slice examples (start_idx cfg)
                (if (n_to_compute cfg =? -1)%Z then None
                 else Some (start_idx cfg + n_to_compute cfg)%Z)).
  intros chosen.
  assert (G : forall off,
             ascending (start_idx cfg + Z.of_nat off)
               (combine (map (fun i => (start_idx cfg + Z.of_nat i)%Z)
                           (seq off (length chosen))) chosen)).
  { induction chosen as [|ex chosen IH]; intros off; [exact I|].
    simpl. split; [lia|].
    replace (start_idx cfg + Z.of_nat off + 1)%Z
      with (start_idx cfg + Z.of_nat (S off))%Z by lia.
    apply IH. }
  specialize (G 0). now rewrite Z.add_0_r in G.
Qed.

Section Run.
Variable W : Type.
Variable google_search : search_call -> W -> res (list search_result) * W.
Variable word_tokenize : string -> list string.
Variable pos_tag : list string -> list (string * string).
Variable cfg : config.

Lemma process_claim_paths (existing : gmap string group) (bound : Z)
    (rs rs' : run_state W) (item : Z * example) :
  NoDup (t_path <$> futures W rs) ->
  Forall (fun t => exists i k, (i < bound)%Z
                               /\ t_path t = store_file_path cfg i k)
    (futures W rs) ->
  (bound <= fst item)%Z ->
  process_claim W google_search word_tokenize pos_tag cfg existing rs item
  = Ret rs' ->
  NoDup (t_path <$> futures W rs')
  /\ Forall (fun t => exists i k, (i < fst item + 1)%Z
                                  /\ t_path t = store_file_path cfg i k)
       (futures W rs').
Proof.
  intros Hnd Hall Hb. unfold process_claim.
  assert (Hold : Forall (fun t => exists i k,
                           (i < fst item + 1)%Z
                           /\ t_path t = store_file_path cfg i k)
                   (futures W rs)).
  { eapply Forall_impl; [exact Hall|]. simpl.
    intros t (i & k & Hi & Hp). exists i, k. split; [lia | exact Hp]. }
  destruct (replay existing (claim (snd item))) as [lines|].
  - intros [= <-]. now split.
  - destruct (search_claim _ _ _ _ _ _ _ _) as [st|e] eqn:E; [|discriminate].
    cbn [bind]. intros [= <-].
    destruct (StoreFacts.search_claim_consistent W google_search word_tokenize
                pos_tag cfg _ _ _ _ E)
      as (new & printed & Hf & _ & Hp & _ & _ & _).
    rewrite Hf. split.
    + rewrite fmap_app. apply NoDup_app. split; [exact Hnd|]. split.
      * intros p Hp1 Hp2.
        apply list_elem_of_fmap in Hp1 as (t & -> & Ht).
        rewrite Hp in Hp2. apply list_elem_of_fmap in Hp2 as (k & Hk & _).
        rewrite Forall_forall in Hall.
        destruct (Hall t Ht) as (i & k' & Hi & Hpt).
        rewrite Hpt in Hk.
        apply store_file_path_names_both in Hk as [-> _]. lia.
      * rewrite Hp. apply NoDup_fmap_2; [|apply NoDup_seq].
        intros a b. apply StoreFacts.store_file_path_inj.
    + apply Forall_app. split; [exact Hold|].
      apply Forall_forall. intros t Ht.
      assert (Hin : t_path t ∈ t_path <$> new)
        by now apply list_elem_of_fmap_2.
      rewrite Hp in Hin. apply list_elem_of_fmap in Hin as (k & Hk & _).
      exists (fst item), k. split; [lia | exact Hk].
Qed.

Lemma for_each_paths (existing : gmap string group)
    (items : list (Z * example)) (bound : Z) (rs rs' : run_state W) :
  ascending bound items ->
  NoDup (t_path <$> futures W rs) ->
  Forall (fun t => exists i k, (i < bound)%Z
                               /\ t_path t = store_file_path cfg i k)
    (futures W rs) ->
  for_each (process_claim W google_search word_tokenize pos_tag cfg existing)
    items rs = Ret rs' ->
  NoDup (t_path <$> futures W rs').
Proof.
  revert bound rs. induction items as [|item items IH];
    intros bound rs Hasc Hnd Hall Hrun.
  - simpl in Hrun. now injection Hrun as <-.
  - simpl in Hrun. destruct Hasc as [Hb Hasc].
    destruct (process_claim _ _ _ _ _ _ rs item) as [rs1|e] eqn:E;
      [|discriminate].
    cbn [bind] in Hrun.
    destruct (process_claim_paths existing bound rs rs1 item Hnd Hall Hb E)
      as [Hnd1 Hall1].
    exact (IH _ _ Hasc Hnd1 Hall1 Hrun).
Qed.

(** X11: over a whole run, whatever the provider answers and whatever is
    replayed, no two submitted tasks have the same store path: every store
    file is written by one task only. *)
Theorem store_files_are_never_shared (resume : option (list string))
    (examples : list example) (w : W) (rs : run_state W) :
  main_loop W google_search word_tokenize pos_tag cfg resume examples w
  = Ret rs ->
  NoDup (t_path <$> futures W rs).
Proof.
  unfold main_loop.
  destruct (load_existing resume) as [existing|e]; [|discriminate].
  cbn [bind]. intros Hrun.
  apply (for_each_paths existing _ _ _ _ (selected_ascending cfg examples))
    with (3 := Hrun); cbn [futures]; constructor.
Qed.
End Run.

Lemma store_files_are_never_shared_witness :
  exists rs,
    main_loop unit Demo.demo_search Demo.demo_tokenize Demo.demo_tag
      Demo.demo_cfg None [Demo.demo_example; Scenarios.other_example] tt
    = Ret rs
    /\ length (futures unit rs) = 4
    /\ NoDup (t_path <$> futures unit rs).
Proof.
  assert (exists rs,
            main_loop unit Demo.demo_search Demo.demo_tokenize Demo.demo_tag
              Demo.demo_cfg None [Demo.demo_example; Scenarios.other_example] tt
            = Ret rs /\ length (futures unit rs) = 4) as (rs & E & Hl).
  { eexists. split; vm_compute; reflexivity. }
  exists rs. split; [exact E|]. split; [exact Hl|].
  exact (store_files_are_never_shared unit Demo.demo_search Demo.demo_tokenize
           Demo.demo_tag Demo.demo_cfg None _ tt rs E).
Defined.

End PathFacts.

(** ** Printed lines read back by the resume parser *)

Module RoundTrip.
Import PyStr PyStrFacts Orchestrator ResumeLog RunShapes.

Lemma rstrip_newline (s : string) : rstrip (s +:+ newline) = rstrip s.
Proof.
  induction s as [|c s IH]; [reflexivity|].
  rewrite append_cons. cbn [rstrip]. now rewrite IH.
Qed.

Lemma rstrip_ends_nonspace (s : string) (c : ascii) :
  isspace c = false ->
  rstrip (s +:+ String c EmptyString) = s +:+ String c EmptyString.
Proof.
  intros Hc. induction s as [|a s IH].
  - rewrite append_empty_l. cbn [rstrip]. now rewrite Hc.
  - rewrite append_cons. cbn [rstrip]. rewrite IH.
    destruct s; reflexivity.
Qed.

Lemma uint_has_no_tab (d : Decimal.uint) :
  has_char tab (NilEmpty.string_of_uint d) = false.
Proof. induction d; simpl; try reflexivity; exact IHd. Qed.

Lemma str_of_Z_shape (z : Z) :
  has_char tab (str_of_Z z) = false
  /\ exists c s, str_of_Z z = String c s /\ isspace c = false.
Proof.
  unfold str_of_Z, NilZero.string_of_int, NilZero.string_of_uint.
  destruct (Z.to_int z) as [d|d]; destruct d;
    (split;
     [ try reflexivity; cbn [has_char Ascii.eqb Bool.eqb orb tab];
       try apply (uint_has_no_tab (_ _)); apply uint_has_no_tab
     | eexists; eexists; split; reflexivity ]).
Qed.

Lemma line_of_shape (cfg : config) (idx : Z) (claim : string)
    (oc : occurrence) :
  exists rest body,
    line_of cfg idx claim oc
    = str_of_Z idx +:+ String tab (claim +:+ String tab rest)
    /\ line_of cfg idx claim oc = body +:+ String "e"%char EmptyString.
Proof.
  unfold line_of, result_line, store_file_path, path_join.
  cbn [join].
  eexists. exists
    (str_of_Z idx +:+ String tab EmptyString +:+ claim
     +:+ String tab EmptyString +:+ oc_link oc +:+ String tab EmptyString
     +:+ str_of_nat (oc_page oc) +:+ String tab EmptyString +:+ oc_query oc
     +:+ String tab EmptyString +:+ oc_type oc +:+ String tab EmptyString
     +:+ (if String.eqb (store_folder cfg) EmptyString
             || endswith (store_folder cfg) "/"
          then store_folder cfg
          else store_folder cfg +:+ "/")
     +:+ "search_result_" +:+ str_of_Z idx +:+ "_"
     +:+ str_of_nat (oc_counter oc) +:+ ".stor").
  split; [reflexivity|].
  destruct (_ || _); rewrite !append_assoc; reflexivity.
Qed.

(** A printed line, read back from a file, is the line that was printed. *)
Lemma strip_stored_line (cfg : config) (idx : Z) (claim : string)
    (oc : occurrence) :
  strip (with_break (line_of cfg idx claim oc)) = line_of cfg idx claim oc.
Proof.
  unfold with_break, strip.
  destruct (line_of_shape cfg idx claim oc) as (rest & body & Hhead & Htail).
  destruct (str_of_Z_shape idx) as (_ & c & s & Hc & Hsp).
  assert (Hl : lstrip (line_of cfg idx claim oc +:+ newline)
               = line_of cfg idx claim oc +:+ newline).
  { rewrite Hhead, Hc, !append_cons. cbn [lstrip]. now rewrite Hsp. }
  rewrite Hl, rstrip_newline, Htail. now apply rstrip_ends_nonspace.
Qed.

Lemma claim_of_stored_line (cfg : config) (idx : Z) (claim : string)
    (oc : occurrence) :
  has_char tab claim = false ->
  claim_of (with_break (line_of cfg idx claim oc)) = Ret claim.
Proof.
  intros Hcl. unfold claim_of. rewrite strip_stored_line.
  destruct (line_of_shape cfg idx claim oc) as (rest & body & -> & _).
  destruct (str_of_Z_shape idx) as (Hnt & _).
  rewrite (split_app tab _ _ Hnt), (split_app tab _ _ Hcl). reflexivity.
Qed.

(** A printed line without a line break is read back as one line. *)
Lemma read_lines_one (line rest : string) :
  no_break line = true ->
  read_lines (with_break line +:+ rest) = with_break line :: read_lines rest.
Proof.
  unfold with_break, no_break. induction line as [|c line IH]; intros H.
  - reflexivity.
  - cbn [has_char] in H. rewrite !negb_orb in H.
    apply andb_true_iff in H as [H1 H2].
    apply andb_true_iff in H1 as [Hn Hl1]. apply andb_true_iff in H2 as [Hr Hl2].
    apply negb_true_iff in Hn, Hr.
    rewrite !append_cons. cbn [read_lines]. rewrite Hn, Hr.
    rewrite IH; [reflexivity|].
    now rewrite Hl1, Hl2.
Qed.

Lemma read_lines_printed (lines : list string) :
  Forall (fun line => no_break line = true) lines ->
  read_lines (printed_text lines) = with_break <$> lines.
Proof.
  induction 1 as [|line lines Hl _ IH]; [reflexivity|].
  cbn [printed_text]. now rewrite (read_lines_one _ _ Hl), IH.
Qed.

(** X12: take a file that holds a first line, then the lines that the main
    loop printed for a claim [a], then the lines it printed for another
    claim [b].  When none of these lines has a line break inside and the
    claim texts have no tab, the file is read back without error, and the
    lines replayed for [a] are the printed lines, character for
    character. *)
Theorem printed_lines_replay_unchanged (cfg : config) (first : string)
    (ia ib : Z) (a b : string) (oa ob : occurrence) (oas obs : list occurrence) :
  has_char tab a = false -> has_char tab b = false ->
  a <> b -> a <> EmptyString ->
  no_break first = true ->
  Forall (fun oc => no_break (line_of cfg ia a oc) = true) (oa :: oas) ->
  Forall (fun oc => no_break (line_of cfg ib b oc) = true) (ob :: obs) ->
  exists ex,
    parse_resume
      (read_lines
         (printed_text
            (first :: (line_of cfg ia a <$> oa :: oas)
                   ++ (line_of cfg ib b <$> ob :: obs)))) = Ret ex
    /\ replay ex a = Some (line_of cfg ia a <$> oa :: oas).
Proof.
  intros Ha Hb Hab Hne Hf Hla Hlb.
  rewrite read_lines_printed.
  2:{ constructor; [exact Hf|]. apply Forall_app. split.
      - apply Forall_fmap. exact Hla.
      - apply Forall_fmap. exact Hlb. }
  rewrite fmap_cons, fmap_app, <- !list_fmap_compose.
  set (fa := with_break ∘ line_of cfg ia a).
  set (fb := with_break ∘ line_of cfg ib b).
  assert (Hca : Forall (fun line => claim_of line = Ret a) (fa <$> oa :: oas)).
  { apply Forall_fmap, Forall_forall. intros oc _. simpl.
    now apply claim_of_stored_line. }
  assert (Hcb : Forall (fun line => claim_of line = Ret b) (fb <$> ob :: obs)).
  { apply Forall_fmap, Forall_forall. intros oc _. simpl.
    now apply claim_of_stored_line. }
  rewrite !fmap_cons in *.
  eexists. split.
  - apply (ResumeFacts.two_groups_parse _ _ _ _ _ a b Hca Hcb Hab Hne).
  - unfold replay. rewrite lookup_insert_eq.
    cbn [fmap option_fmap option_map g_lines].
    f_equal. rewrite <- !fmap_cons, <- list_fmap_compose.
    apply list_fmap_ext. intros i oc _. apply strip_stored_line.
Qed.

Lemma printed_lines_replay_unchanged_witness :
  let oc := Occurrence "http://a.example/1" 0 "A claim" "claim-noformat" 1 in
  exists ex,
    parse_resume
      (read_lines
         (printed_text
            [ header_line;
              line_of Demo.demo_cfg 0 "A claim" oc;
              line_of Demo.demo_cfg 1 "Z" oc ])) = Ret ex
    /\ replay ex "A claim" = Some [line_of Demo.demo_cfg 0 "A claim" oc].
Proof.
  intros oc.
  apply (printed_lines_replay_unchanged Demo.demo_cfg header_line
           0 1 "A claim" "Z" oc oc [] []).
  - reflexivity.
  - reflexivity.
  - discriminate.
  - discriminate.
  - reflexivity.
  - repeat constructor.
  - repeat constructor.
Defined.

(** A printed record with a line break inside is read back as two lines:
    the claim text is cut, and its second half has no tab and no claim. *)
Example line_break_splits_a_record :
  read_lines (printed_text ["0" +:+ String tab ("Line one" +:+ newline
                                  +:+ "line two")])
  = ["0" +:+ String tab "Line one" +:+ newline; "line two" +:+ newline].
Proof. vm_compute. reflexivity. Qed.

End RoundTrip.

(** ** Files written by the pool *)

Module FileFacts.
Import PyStr FetchWorker Orchestrator Drain.

Section Pool.
Variable url2lines : string -> res page.
Variable open_error : string -> option exn.
Variable write_error : string -> string -> option (exn * string).
Variable pool_fault : fetch_task -> option exn.

Lemma run_task_frame (t : fetch_task) (files : gmap string string)
    (fp : string) :
  fp <> t_path t ->
  snd (run_task url2lines open_error write_error pool_fault t files) !! fp
  = files !! fp.
Proof.
  intros Hne. unfold run_task, get_and_store, try_block.
  destruct (pool_fault t); [reflexivity|].
  destruct (url2lines (t_url t)) as [pg|e]; [|reflexivity].
  destruct (open_error (t_path t)); [reflexivity|].
  destruct (joined_items 1 (as_items pg)) as [ls|e]; cbn [snd].
  - destruct (write_error (t_path t) _) as [[e remains]|]; cbn [snd];
      now rewrite lookup_insert_ne.
  - now rewrite lookup_insert_ne.
Qed.

Lemma drain_frame (completed : list fetch_task) (files : gmap string string)
    (fp : string) :
  fp ∉ t_path <$> completed ->
  snd (drain url2lines open_error write_error pool_fault completed files) !! fp
  = files !! fp.
Proof.
  revert files. induction completed as [|t rest IH]; intros files Hnot;
    [reflexivity|].
  rewrite fmap_cons in Hnot. apply not_elem_of_cons in Hnot as [Hne Hnot].
  cbn [drain].
  pose proof (run_task_frame t files fp Hne) as Hf.
  destruct (run_task url2lines open_error write_error pool_fault t files)
    as [r files1].
  specialize (IH files1 Hnot).
  destruct (drain url2lines open_error write_error pool_fault rest files1)
    as [ls files2].
  cbn [snd] in *. now rewrite IH.
Qed.

Lemma run_task_writes (t : fetch_task) (files : gmap string string)
    (pg : page) (page_lines : list string) :
  pool_fault t = None -> url2lines (t_url t) = Ret pg ->
  open_error (t_path t) = None ->
  joined_items 1 (as_items pg) = Ret page_lines ->
  write_error (t_path t) (join newline (t_url t :: page_lines)) = None ->
  snd (run_task url2lines open_error write_error pool_fault t files)
    !! t_path t
  = Some (join newline (t_url t :: page_lines)).
Proof.
  intros Hp Hu Ho Hj Hw. unfold run_task, get_and_store. rewrite Hp.
  rewrite (FetchFacts.try_block_success url2lines open_error write_error
             _ _ files pg page_lines Hu Ho Hj Hw).
  cbn [snd]. apply lookup_insert_eq.
Qed.

(** X13: when the completed tasks have pairwise different store paths, the
    drain leaves, for every task whose extraction and write succeed, a
    file with the task's URL on its first line followed by the extracted
    lines; and it changes no file other than the store paths of the
    tasks. *)
Theorem drain_leaves_one_file_per_task (completed : list fetch_task)
    (files : gmap string string) :
  NoDup (t_path <$> completed) ->
  (forall t pg page_lines,
     In t completed -> pool_fault t = None ->
     url2lines (t_url t) = Ret pg -> open_error (t_path t) = None ->
     joined_items 1 (as_items pg) = Ret page_lines ->
     write_error (t_path t) (join newline (t_url t :: page_lines)) = None ->
     snd (drain url2lines open_error write_error pool_fault completed files)
       !! t_path t
     = Some (join newline (t_url t :: page_lines)))
  /\ (forall fp,
        fp ∉ t_path <$> completed ->
        snd (drain url2lines open_error write_error pool_fault completed files)
          !! fp
        = files !! fp).
Proof.
  intros Hnd. split; [|intros fp; apply drain_frame].
  revert files Hnd. induction completed as [|t0 rest IH];
    intros files Hnd t pg page_lines Hin Hp Hu Ho Hj Hw; [destruct Hin|].
  rewrite fmap_cons in Hnd. apply NoDup_cons in Hnd as [Hfresh Hnd].
  cbn [drain].
  pose proof (run_task_writes t0 files) as Hwr.
  destruct (run_task url2lines open_error write_error pool_fault t0 files)
    as [r files1].
  pose proof (drain_frame rest files1 (t_path t0) Hfresh) as Hfr.
  specialize (IH files1 Hnd t pg page_lines).
  destruct (drain url2lines open_error write_error pool_fault rest files1)
    as [ls files2].
  cbn [snd] in *. destruct Hin as [<- | Hin].
  - rewrite Hfr. now apply (Hwr pg).
  - now apply IH.
Qed.
End Pool.

Lemma drain_leaves_one_file_per_task_witness :
  let url2lines := fun url : string =>
    if String.eqb url "http://a.example/"
    then Ret (Lines [Text "first"; Text "second"])
    else Raise (Exn "TimeoutError" "timed out") in
  let open_error := fun _ : string => @None exn in
  let write_error := fun _ _ : string => @None (exn * string) in
  let pool_fault := fun _ : fetch_task => @None exn in
  let ta := FetchTask "http://a.example/" "store/1" 0 "A" 0 "A" "claim" in
  let tb := FetchTask "http://b.example/" "store/2" 0 "A" 0 "A" "claim" in
  snd (drain url2lines open_error write_error pool_fault [tb; ta] ∅)
    !! "store/1"
  = Some (join newline ["http://a.example/"; "first"; "second"]).
Proof.
  intros url2lines open_error write_error pool_fault ta tb.
  apply (proj1 (drain_leaves_one_file_per_task url2lines open_error
                  write_error pool_fault [tb; ta] ∅
                  ltac:(apply NoDup_cons; split;
                        [ intros H; apply list_elem_of_singleton in H;
                          discriminate
                        | apply NoDup_singleton ]))
           ta (Lines [Text "first"; Text "second"]) ["first"; "second"]).
  - right. left. reflexivity.
  - reflexivity.
  - reflexivity.
  - reflexivity.
  - reflexivity.
  - reflexivity.
Defined.

End FileFacts.

(** ** Status lines in a resume file *)

Module StatusFacts.
Import PyStr PyStrFacts FetchWorker Orchestrator ResumeLog.

Lemma has_char_app (c : ascii) (a b : string) :
  has_char c (a +:+ b) = has_char c a || has_char c b.
Proof.
  induction a as [|x a IH]; [reflexivity|].
  rewrite append_cons. cbn [has_char]. now rewrite IH, orb_assoc.
Qed.

Lemma drain_line_no_tab (idx : Z) (store_fp : string) (result : res outcome) :
  has_char tab store_fp = false ->
  match result with
  | Ret o => has_char tab (o_url o) = false /\ has_char tab (o_fp o) = false
             /\ has_char tab (o_msg o) = false
  | Raise e => has_char tab (exn_msg e) = false
  end ->
  has_char tab (drain_line idx store_fp result) = false.
Proof.
  intros Hfp Hr. destruct (RoundTrip.str_of_Z_shape idx) as [Hz _].
  unfold drain_line. destruct result as [o|e].
  - destruct Hr as (Hu & Hf & Hm).
    destruct (o_ok o); rewrite !has_char_app, Hz, Hu, ?Hf, ?Hm; reflexivity.
  - rewrite !has_char_app, Hz, Hfp, Hr. reflexivity.
Qed.

(** X14: a status line of the drain loop has no tab when the URL, the path
    and the message it shows have none; a resume file that holds such a
    line after its first line, as the output of a run that fetched
    something does, makes the parsing raise [IndexError]. *)
Theorem status_line_breaks_resume (first : string) (before after : list string)
    (idx : Z) (store_fp : string) (result : res outcome) :
  has_char tab store_fp = false ->
  match result with
  | Ret o => has_char tab (o_url o) = false /\ has_char tab (o_fp o) = false
             /\ has_char tab (o_msg o) = false
  | Raise e => has_char tab (exn_msg e) = false
  end ->
  has_char tab (drain_line idx store_fp result) = false
  /\ exists e,
       parse_resume
         (first :: before ++ (drain_line idx store_fp result +:+ newline)
                   :: after) = Raise e
       /\ exn_type e = "IndexError".
Proof.
  intros Hfp Hr.
  pose proof (drain_line_no_tab idx store_fp result Hfp Hr) as Hnt.
  split; [exact Hnt|]. unfold parse_resume.
  destruct (ResumeFacts.for_each_raise parse_line
              (before ++ (drain_line idx store_fp result +:+ newline) :: after)
              init_state (fun e => exn_type e = "IndexError"))
    as (e & He & Ht).
  - intros s' x e. apply ResumeFacts.parse_line_raises_only_IndexError.
  - eexists. split; [apply in_or_app; right; left; reflexivity|].
    intros s'. eexists. apply ResumeFacts.parse_line_no_tab.
    rewrite has_char_app, Hnt. reflexivity.
  - exists e. now rewrite He.
Qed.

Lemma status_line_breaks_resume_witness :
  exists e,
    parse_resume
      [ header_line +:+ newline;
        drain_line 0 "store/search_result_0_1.store"
          (Ret (Outcome "store/search_result_0_1.store" "http://a.example/1"
                  true "ok")) +:+ newline ] = Raise e
    /\ exn_type e = "IndexError".
Proof.
  apply (status_line_breaks_resume (header_line +:+ newline) [] [] 0
           "store/search_result_0_1.store"
           (Ret (Outcome "store/search_result_0_1.store" "http://a.example/1"
                   true "ok"))).
  - reflexivity.
  - repeat split.
Defined.

End StatusFacts.

(** ** The loaded misinfo list *)

Module MisinfoFacts.
Import PyStr PyStrFacts ResultFilter.

Lemma lower_char_idempotent (c : ascii) :
  lower_char (lower_char c) = lower_char c.
Proof. destruct c as [[] [] [] [] [] [] [] []]; vm_compute; reflexivity. Qed.

Lemma lower_idempotent (s : string) : lower (lower s) = lower s.
Proof.
  induction s as [|c s IH]; [reflexivity|].
  cbn [lower]. now rewrite lower_char_idempotent, IH.
Qed.

(** X15: every entry of the loaded misinfo list comes from a line of the
    file that is not blank, is that line stripped and put in lower case, is
    not empty and is unchanged by a second lower-casing; the list has at
    most as many entries as the file has lines, and none without a file. *)
Theorem misinfo_entries_are_normalised (file : option (list string)) :
  (forall d, In d (load_misinfo file) ->
     d <> EmptyString /\ lower d = d
     /\ exists lines line,
          file = Some lines /\ In line lines /\ d = lower (strip line))
  /\ length (load_misinfo file)
     <= match file with Some lines => length lines | None => 0 end.
Proof.
  destruct file as [lines|]; cbn [load_misinfo]; [|split; [intros d [] | simpl; lia]].
  split.
  - intros d Hd. apply in_map_iff in Hd as (line & <- & Hin).
    apply list_elem_of_In, list_elem_of_filter in Hin as [Hne Hin].
    split; [|split].
    + destruct (strip line); [contradiction | discriminate].
    + apply lower_idempotent.
    + exists lines, line. split; [reflexivity|].
      split; [now apply list_elem_of_In | reflexivity].
  - rewrite length_map. apply length_filter.
Qed.

Lemma misinfo_entries_are_normalised_witness :
  "fakenews.example" <> EmptyString
  /\ lower "fakenews.example" = "fakenews.example"
  /\ exists lines line,
       Some ["  FakeNews.Example " +:+ newline; newline] = Some lines
       /\ In line lines /\ "fakenews.example" = lower (strip line).
Proof.
  apply (proj1 (misinfo_entries_are_normalised
                  (Some ["  FakeNews.Example " +:+ newline; newline]))
           "fakenews.example").
  left. reflexivity.
Defined.

End MisinfoFacts.
